(** * lab-maker: the lab generation pipeline of [app.py]

    A shallow embedding of the prompt builder ([get_lab_prompt]), the lab
    generator ([generate_lab]), the "Generate New Lab" handler and the
    topology loop of the display code, followed by the properties that the
    specification states about them.

    Python [str] values are sequences of Unicode code points; they are
    modelled as [list N].  The methods of [str] and the functions of the
    [json] module that the program calls are modelled after CPython. *)

From Stdlib Require Import String Ascii NArith ZArith List Lia Bool.
From stdpp Require Import gmap list pretty.

Local Open Scope N_scope.
Set Warnings "-register-all".

(** ** Text *)

Abbreviation text := (list N).

(** A Python string literal whose characters are all ASCII. *)
Definition py (s : string) : text := N_of_ascii <$> list_ascii_of_string s.

Module Chr.
Definition NL : N := 10.
Definition DQUOTE : N := 34.
Definition BACKSLASH : N := 92.
Definition BACKTICK : N := 96.
End Chr.

(** ** Methods of [str] *)

Module Str.

(** [s.startswith(pre)] *)
Fixpoint startswith (pre s : text) : bool :=
  match pre, s with
  | [], _ => true
  | _ :: _, [] => false
  | p :: pre', c :: s' => (p =? c) && startswith pre' s'
  end.

(** [sub in s] *)
Fixpoint contains (sub s : text) : bool :=
  startswith sub s ||
  match s with
  | [] => false
  | _ :: s' => contains sub s'
  end.

(** [s.count(sub)] for a non-empty [sub]: occurrences are counted from the
    left and do not overlap; [skip] is the number of characters of the
    current occurrence that are still to be passed. *)
Fixpoint count_from (sub : text) (skip : nat) (s : text) : nat :=
  match s with
  | [] => 0%nat
  | _ :: s' =>
    match skip with
    | S k => count_from sub k s'
    | O => if startswith sub s
           then S (count_from sub (length sub - 1) s')
           else count_from sub 0 s'
    end
  end.

Definition count (sub s : text) : nat := count_from sub 0 s.

(** [s.replace(old, new)]: every occurrence of [old], found from the left
    and not overlapping, is replaced by [new]. *)
Fixpoint replace_from (old new : text) (skip : nat) (s : text) : text :=
  match s with
  | [] => []
  | c :: s' =>
    match skip with
    | S k => replace_from old new k s'
    | O => if startswith old s
           then new ++ replace_from old new (length old - 1) s'
           else c :: replace_from old new 0 s'
    end
  end.

Definition replace (old new s : text) : text :=
  match old with
  | [] => new ++ flat_map (fun c => c :: new) s
  | _ :: _ => replace_from old new 0 s
  end.

(** [s.split(sep)] for a non-empty [sep] (Python raises [ValueError] on an
    empty one): the pieces between the occurrences of [sep], found from
    the left and not overlapping; [cur] is the piece being read. *)
Fixpoint split_from (sep : text) (skip : nat) (cur s : text) : list text :=
  match s with
  | [] => [cur]
  | c :: s' =>
    match skip with
    | S k => split_from sep k cur s'
    | O => if startswith sep s
           then cur :: split_from sep (length sep - 1) [] s'
           else split_from sep 0 (cur ++ [c]) s'
    end
  end.

Definition split (sep s : text) : list text := split_from sep 0 [] s.

(** [s.partition(sep)], without the separator: the text before and after
    the first occurrence of [sep], if there is one. *)
Fixpoint partition (sep s : text) : option (text * text) :=
  match s with
  | [] => None
  | c :: s' =>
    if startswith sep s then Some ([], drop (length sep) s)
    else match partition sep s' with
         | Some (a, r) => Some (c :: a, r)
         | None => None
         end
  end.

(** [c.isspace()], the characters that [strip()] removes:
    [_PyUnicode_IsWhitespace]. *)
Definition isspace (c : N) : bool :=
  ((9 <=? c) && (c <=? 13)) || ((28 <=? c) && (c <=? 32))
  || (c =? 133) || (c =? 160) || (c =? 5760)
  || ((8192 <=? c) && (c <=? 8202))
  || (c =? 8232) || (c =? 8233) || (c =? 8239) || (c =? 8287)
  || (c =? 12288).

Fixpoint lstrip (s : text) : text :=
  match s with
  | [] => []
  | c :: s' => if isspace c then lstrip s' else s
  end.

Definition rstrip (s : text) : text := rev (lstrip (rev s)).

(** [s.strip()] *)
Definition strip (s : text) : text := rstrip (lstrip s).

End Str.

(** ** The prompt builder *)

(** The options of the two sidebar controls. *)
Definition TOPICS : list text :=
  [ py "OSPF Single Area"; py "VLANs & Trunking"; py "ACL (Standard/Extended)";
    py "NAT (Static/Dynamic)"; py "BGP Basics" ].

Definition DIFFICULTIES : list text :=
  [ py "Junior Admin"; py "Network Engineer"; py "CCIE Expert" ].

(** A double-quoted word of the template. *)
Definition q (s : string) : text := Chr.DQUOTE :: py s ++ [Chr.DQUOTE].

(** The lines of a text, each closed by a newline. *)
Definition unlines (ls : list text) : text :=
  flat_map (fun l => l ++ [Chr.NL]) ls.

(** [get_lab_prompt(topic, difficulty)]: the f-string, line by line.  It
    opens with a newline and closes with the indentation of its last
    line. *)
Definition get_lab_prompt (topic difficulty : text) : text :=
  unlines
    [ [];
      py "    Act as a Cisco Certified Internetwork Expert (CCIE).";
      py "    Create a CCNA Practice Lab for the topic: " ++ topic ++ py ".";
      py "    Difficulty Level: " ++ difficulty ++ py ".";
      [];
      py "    You MUST return the output in valid JSON format ONLY. Do not add markdown backticks (```json).";
      py "    Structure the JSON exactly like this:";
      py "    {";
      py "        " ++ q "lab_title" ++ py ": " ++ q "String" ++ py ",";
      py "        " ++ q "scenario_description" ++ py ": "
         ++ q "String (Short business context)" ++ py ",";
      py "        " ++ q "topology_connections" ++ py ": [";
      py "            " ++ q "Router1 (G0/0) -> Switch1 (G0/1)" ++ py ",";
      py "            " ++ q "Switch1 (F0/1) -> PC1";
      py "        ],";
      py "        " ++ q "device_configurations" ++ py ": {";
      py "            " ++ q "Router1" ++ py ": " ++ q "IP: 192.168.1.1/24" ++ py ",";
      py "            " ++ q "PC1" ++ py ": " ++ q "IP: 192.168.1.10/24";
      py "        },";
      py "        " ++ q "tasks" ++ py ": [";
      py "            " ++ q "Step 1: ..." ++ py ",";
      py "            " ++ q "Step 2: ...";
      py "        ],";
      py "        " ++ q "solution_commands" ++ py ": "
         ++ q "Full IOS command list to solve it" ++ py ",";
      py "        " ++ q "verification_commands" ++ py ": "
         ++ q "List of 'show' commands to verify";
      py "    }" ]
  ++ py "    ".

(** The two code-fence markers that the generator strips. *)
Definition FENCE_JSON : text := Eval cbv in py "```json".
Definition FENCE : text := Eval cbv in py "```".

(** The delimiter of a connection entry. *)
Definition ARROW : text := Eval cbv in py "->".

(** ** Values decoded from JSON *)

(** Python numbers stay abstract: [int(lit)] and [float(lit)] on a number
    literal (either may raise), the text [json.dumps] writes for a number,
    and the truth value of a number. *)
Class PyNumbers := {
  pynum : Type;
  num_of_literal : bool -> text -> option pynum;
  num_repr : pynum -> text;
  num_truthy : pynum -> bool
}.

Section Values.
Context `{PyNumbers}.

(** What [json.loads] returns.  A [dict] keeps its keys in insertion
    order, which is the order [json.dumps] writes them in. *)
Inductive pyval : Type :=
| PyNone
| PyBool (b : bool)
| PyNum (n : pynum)
| PyStr (s : text)
| PyList (l : list pyval)
| PyDict (d : list (text * pyval)).

(** [d[k] = v]: a key that is present keeps its place. *)
Fixpoint dict_set (k : text) (v : pyval) (d : list (text * pyval))
  : list (text * pyval) :=
  match d with
  | [] => [(k, v)]
  | (k', v') :: d' =>
    if decide (k = k') then (k', v) :: d' else (k', v') :: dict_set k v d'
  end.

(** [d[k]], [None] standing for [KeyError]. *)
Fixpoint dict_get (k : text) (d : list (text * pyval)) : option pyval :=
  match d with
  | [] => None
  | (k', v') :: d' => if decide (k = k') then Some v' else dict_get k d'
  end.

(** [bool(v)], as tested by [if lab_data:]. *)
Definition truthy (v : pyval) : bool :=
  match v with
  | PyNone => false
  | PyBool b => b
  | PyNum n => num_truthy n
  | PyStr s => negb (bool_decide (s = []))
  | PyList l => negb (bool_decide (l = []))
  | PyDict d => negb (bool_decide (d = []))
  end.

End Values.

(** ** [json.loads]

    The decoder of CPython's [json] module with its default settings
    (strict, no hooks): the scanner [scan_once] and its helpers
    [scanstring], [_match_number], [_parse_object] and [_parse_array]. *)

Module Lex.

(** JSON whitespace: space, tab, line feed, carriage return. *)
Definition is_ws (c : N) : bool :=
  (c =? 32) || (c =? 9) || (c =? 10) || (c =? 13).

Fixpoint skip_ws (s : text) : text :=
  match s with
  | [] => []
  | c :: r => if is_ws c then skip_ws r else s
  end.

Definition is_digit (c : N) : bool := (48 <=? c) && (c <=? 57).

(** The longest prefix of decimal digits, and what follows it. *)
Fixpoint span_digits (s : text) : text * text :=
  match s with
  | [] => ([], [])
  | c :: r =>
    if is_digit c then let '(ds, r') := span_digits r in (c :: ds, r')
    else ([], s)
  end.

(** The value of a hexadecimal digit, in either case. *)
Definition hex_value (c : N) : option N :=
  if (48 <=? c) && (c <=? 57) then Some (c - 48)
  else if (97 <=? c) && (c <=? 102) then Some (c - 87)
  else if (65 <=? c) && (c <=? 70) then Some (c - 55)
  else None.

(** The four hexadecimal digits of a [\uXXXX] escape. *)
Definition hex4_value (a b c d : N) : option N :=
  match hex_value a, hex_value b, hex_value c, hex_value d with
  | Some x3, Some x2, Some x1, Some x0 =>
    Some (N.lor (N.shiftl (N.lor (N.shiftl (N.lor (N.shiftl x3 4) x2) 4) x1) 4) x0)
  | _, _, _, _ => None
  end.

Definition is_high_surrogate (u : N) : bool := (55296 <=? u) && (u <=? 56319).
Definition is_low_surrogate (u : N) : bool := (56320 <=? u) && (u <=? 57343).

(** [Py_UNICODE_JOIN_SURROGATES] *)
Definition join_surrogates (hi lo : N) : N :=
  65536 + N.lor (N.shiftl (N.land hi 1023) 10) (N.land lo 1023).

(** The character a one-letter escape stands for. *)
Definition unescape (e : N) : option N :=
  if e =? 34 then Some 34            (* double quote *)
  else if e =? 92 then Some 92       (* backslash *)
  else if e =? 47 then Some 47       (* slash *)
  else if e =? 98 then Some 8        (* b: backspace *)
  else if e =? 102 then Some 12      (* f: form feed *)
  else if e =? 110 then Some 10      (* n: line feed *)
  else if e =? 114 then Some 13      (* r: carriage return *)
  else if e =? 116 then Some 9       (* t: tab *)
  else None.

Definition push (c : N) (r : option (text * text)) : option (text * text) :=
  match r with
  | Some (s, rest) => Some (c :: s, rest)
  | None => None
  end.

(** [scanstring], started after the opening quote: the decoded string and
    the text after the closing quote.  A raw control character, an unknown
    escape and a missing closing quote are errors.  A [\uXXXX] escape of a
    high surrogate followed by one of a low surrogate is one character. *)
Fixpoint scanstring (s : text) : option (text * text) :=
  match s with
  | [] => None
  | c :: r =>
    if c =? Chr.DQUOTE then Some ([], r)
    else if c =? Chr.BACKSLASH then
      match r with
      | [] => None
      | e :: r1 =>
        if e =? 117 then
          match r1 with
          | a :: b :: c' :: d :: r2 =>
            match hex4_value a b c' d with
            | None => None
            | Some u =>
              if is_high_surrogate u then
                match r2 with
                | bs :: e2 :: a2 :: b2 :: c2 :: d2 :: r3 =>
                  if (bs =? Chr.BACKSLASH) && (e2 =? 117) then
                    match hex4_value a2 b2 c2 d2 with
                    | None => None
                    | Some u2 =>
                      if is_low_surrogate u2
                      then push (join_surrogates u u2) (scanstring r3)
                      else push u (scanstring r2)
                    end
                  else push u (scanstring r2)
                | _ => push u (scanstring r2)
                end
              else push u (scanstring r2)
            end
          | _ => None
          end
        else
          match unescape e with
          | Some x => push x (scanstring r1)
          | None => None
          end
      end
    else if c <=? 31 then None
    else push c (scanstring r)
  end.

(** [_match_number]: the number literal at the head of the text (an
    optional minus sign; a zero, or a non-zero digit and more digits; an
    optional fraction, a dot and digits; an optional exponent, [e] or [E],
    an optional sign and digits), whether it has a fraction or an exponent,
    and what follows it. *)
Definition match_int (s : text) : option (text * text) :=
  match s with
  | [] => None
  | c :: r =>
    if c =? 48 then Some ([c], r)
    else if (49 <=? c) && (c <=? 57)
    then let '(ds, r') := span_digits r in Some (c :: ds, r')
    else None
  end.

Definition match_frac (s : text) : option (text * text) :=
  match s with
  | dot :: r =>
    if dot =? 46 then
      match span_digits r with
      | ([], _) => None
      | (ds, r') => Some (dot :: ds, r')
      end
    else None
  | [] => None
  end.

Definition match_exp (s : text) : option (text * text) :=
  match s with
  | e :: r =>
    if (e =? 101) || (e =? 69) then
      let '(sign, r1) :=
        match r with
        | sg :: r' => if (sg =? 45) || (sg =? 43) then ([sg], r') else ([], r)
        | [] => ([], r)
        end in
      match span_digits r1 with
      | ([], _) => None
      | (ds, r2) => Some (e :: sign ++ ds, r2)
      end
    else None
  | [] => None
  end.

Definition match_number (s : text) : option (text * bool * text) :=
  let '(sign, s1) :=
    match s with
    | c :: r => if c =? 45 then ([c], r) else ([], s)
    | [] => ([], s)
    end in
  match match_int s1 with
  | None => None
  | Some (int, s2) =>
    let '(frac, s3) :=
      match match_frac s2 with Some (f, r) => (f, r) | None => ([], s2) end in
    let '(exp, s4) :=
      match match_exp s3 with Some (e, r) => (e, r) | None => ([], s3) end in
    Some (sign ++ int ++ frac ++ exp,
          negb (bool_decide (frac = [])) || negb (bool_decide (exp = [])), s4)
  end.

(** The text after [word], when the text starts with it. *)
Definition after (word s : text) : option text :=
  if Str.startswith word s then Some (drop (length word) s) else None.

End Lex.

Section Decoder.
Context `{PyNumbers}.

Definition constant (v : pyval) (word s : text) : option (pyval * text) :=
  match Lex.after word s with
  | Some r => Some (v, r)
  | None => None
  end.

Definition number (lit : text) (is_float : bool) (r : text)
  : option (pyval * text) :=
  match num_of_literal is_float lit with
  | Some n => Some (PyNum n, r)
  | None => None
  end.

Definition scan_number (s : text) : option (pyval * text) :=
  match Lex.match_number s with
  | Some (lit, is_float, r) => number lit is_float r
  | None => None
  end.

(** [scan_once] at the head of the text; [parse_members] is the loop of
    [_parse_object], entered at the opening quote of a key with the dict
    built so far; [parse_elements] is the loop of [_parse_array], entered at
    an element with the elements read so far.  Each call down the three
    functions takes one unit of [fuel]. *)
Fixpoint scan_once (fuel : nat) (s : text) : option (pyval * text) :=
  match fuel with
  | O => None
  | S fuel' =>
    match s with
    | [] => None
    | c :: r =>
      if c =? Chr.DQUOTE then
        match Lex.scanstring r with
        | Some (str, r') => Some (PyStr str, r')
        | None => None
        end
      else if c =? 123 then
        match Lex.skip_ws r with
        | c' :: r' =>
          if c' =? 125 then Some (PyDict [], r')
          else parse_members fuel' [] (c' :: r')
        | [] => None
        end
      else if c =? 91 then
        match Lex.skip_ws r with
        | c' :: r' =>
          if c' =? 93 then Some (PyList [], r')
          else parse_elements fuel' [] (c' :: r')
        | [] => None
        end
      else if Str.startswith (py "null") s then constant PyNone (py "null") s
      else if Str.startswith (py "true") s
      then constant (PyBool true) (py "true") s
      else if Str.startswith (py "false") s
      then constant (PyBool false) (py "false") s
      else if Str.startswith (py "NaN") s
      then number (py "NaN") true (drop 3 s)
      else if Str.startswith (py "Infinity") s
      then number (py "Infinity") true (drop 8 s)
      else if Str.startswith (py "-Infinity") s
      then number (py "-Infinity") true (drop 9 s)
      else scan_number s
    end
  end
with parse_members (fuel : nat) (d : list (text * pyval)) (s : text)
  : option (pyval * text) :=
  match fuel with
  | O => None
  | S fuel' =>
    match s with
    | [] => None
    | c :: r =>
      if c =? Chr.DQUOTE then
        match Lex.scanstring r with
        | None => None
        | Some (key, r1) =>
          match Lex.skip_ws r1 with
          | [] => None
          | colon :: r2 =>
            if colon =? 58 then
              match scan_once fuel' (Lex.skip_ws r2) with
              | None => None
              | Some (v, r3) =>
                let d' := dict_set key v d in
                match Lex.skip_ws r3 with
                | [] => None
                | c4 :: r4 =>
                  if c4 =? 125 then Some (PyDict d', r4)
                  else if c4 =? 44 then parse_members fuel' d' (Lex.skip_ws r4)
                  else None
                end
              end
            else None
          end
        end
      else None
    end
  end
with parse_elements (fuel : nat) (acc : list pyval) (s : text)
  : option (pyval * text) :=
  match fuel with
  | O => None
  | S fuel' =>
    match scan_once fuel' s with
    | None => None
    | Some (v, r) =>
      match Lex.skip_ws r with
      | [] => None
      | c :: r' =>
        if c =? 93 then Some (PyList (acc ++ [v]), r')
        else if c =? 44 then parse_elements fuel' (acc ++ [v]) (Lex.skip_ws r')
        else None
      end
    end
  end.

(** [json.loads(s)]: one value between optional whitespace, and nothing
    after it; [None] stands for the exception the decoder raises.  The
    fuel [2 * len(s) + 2] covers every nesting a text of that length can
    hold ([json_loads_fuel] below); the recursion limit of the interpreter
    is not modelled. *)
Definition json_loads (s : text) : option pyval :=
  match scan_once (2 * length s + 2) (Lex.skip_ws s) with
  | Some (v, r) =>
    match Lex.skip_ws r with
    | [] => Some v
    | _ :: _ => None
    end
  | None => None
  end.

End Decoder.

(** ** [json.dumps]

    The encoder of CPython's [json] module as [json.dumps(data, indent=n)]
    runs it: [ensure_ascii] on, items separated by a comma and a new line,
    keys separated from values by a colon and a space. *)

Module Enc.

(** A lower-case hexadecimal digit. *)
Definition hex_digit (d : N) : N := if d <? 10 then 48 + d else 87 + d.

(** ['\\u{0:04x}'.format(n)] *)
Definition u_escape (n : N) : text :=
  [ Chr.BACKSLASH; 117;
    hex_digit (N.land (N.shiftr n 12) 15); hex_digit (N.land (N.shiftr n 8) 15);
    hex_digit (N.land (N.shiftr n 4) 15); hex_digit (N.land n 15) ].

(** What [encode_basestring_ascii] writes for one character: the
    characters from space to tilde stand for themselves, but for the
    backslash and the double quote; the others are escaped, those beyond
    the basic plane as a surrogate pair. *)
Definition escape_char (c : N) : text :=
  if c =? 92 then [Chr.BACKSLASH; 92]
  else if c =? 34 then [Chr.BACKSLASH; 34]
  else if c =? 8 then [Chr.BACKSLASH; 98]
  else if c =? 12 then [Chr.BACKSLASH; 102]
  else if c =? 10 then [Chr.BACKSLASH; 110]
  else if c =? 13 then [Chr.BACKSLASH; 114]
  else if c =? 9 then [Chr.BACKSLASH; 116]
  else if (32 <=? c) && (c <=? 126) then [c]
  else if c <? 65536 then u_escape c
  else
    let n := c - 65536 in
    u_escape (N.lor 55296 (N.land (N.shiftr n 10) 1023))
    ++ u_escape (N.lor 56320 (N.land n 1023)).

Definition encode_basestring_ascii (s : text) : text :=
  Chr.DQUOTE :: flat_map escape_char s ++ [Chr.DQUOTE].

(** [sep.join(items)] *)
Fixpoint join (sep : text) (items : list text) : text :=
  match items with
  | [] => []
  | [x] => x
  | x :: rest => x ++ sep ++ join sep rest
  end.

(** A new line and the indentation of a nesting level. *)
Definition newline_indent (indent level : nat) : text :=
  Chr.NL :: replicate (indent * level) 32.

End Enc.

Section Encoder.
Context `{PyNumbers}.

(** [_iterencode] at a nesting level. *)
Fixpoint encode (indent level : nat) (v : pyval) : text :=
  match v with
  | PyNone => py "null"
  | PyBool true => py "true"
  | PyBool false => py "false"
  | PyNum n => num_repr n
  | PyStr s => Enc.encode_basestring_ascii s
  | PyList [] => py "[]"
  | PyList l =>
    py "[" ++ Enc.newline_indent indent (S level)
    ++ Enc.join (py "," ++ Enc.newline_indent indent (S level))
         (encode indent (S level) <$> l)
    ++ Enc.newline_indent indent level ++ py "]"
  | PyDict [] => py "{}"
  | PyDict d =>
    py "{" ++ Enc.newline_indent indent (S level)
    ++ Enc.join (py "," ++ Enc.newline_indent indent (S level))
         ((fun kv => Enc.encode_basestring_ascii kv.1 ++ py ": "
                     ++ encode indent (S level) kv.2) <$> d)
    ++ Enc.newline_indent indent level ++ py "}"
  end.

(** [json.dumps(v, indent=indent)] *)
Definition json_dumps (indent : nat) (v : pyval) : text := encode indent 0 v.

End Encoder.

(** ** The lab generator and the page *)

(** What the program gets from outside.  [generate_content n key prompt] is
    the outcome of [model.generate_content(prompt)] and of reading
    [response.text], for the model configured with [key], when [n] calls
    were made before: the text of the exception raised, or the response
    text.  [decode_error_text s] is the text of the exception that
    [json.loads(s)] raises when it does. *)
Class Environment := {
  generate_content : nat -> text -> text -> text + text;
  decode_error_text : text -> text
}.

(** The values of the sidebar controls, which [generate_lab] reads as
    globals. *)
Record Controls := {
  api_key : text;
  topic : text;
  difficulty : text
}.

(** [clean_text]: the response without the two fence markers. *)
Definition strip_fences (response_text : text) : text :=
  Str.replace FENCE [] (Str.replace FENCE_JSON [] response_text).

Section App.
Context `{PyNumbers} `{Environment}.

(** What a run of the script acts on: the messages shown by [st.error],
    the calls made to the provider (key and prompt, oldest first) and
    [st.session_state]. *)
Record World := {
  errors : list text;
  calls : list (text * text);
  session_state : gmap text pyval
}.

(** Computations on the world. *)
Definition M (A : Type) : Type := World -> A * World.

Definition ret {A} (a : A) : M A := fun w => (a, w).

Definition bind {A B} (m : M A) (k : A -> M B) : M B :=
  fun w => let '(a, w') := m w in k a w'.

Notation "'do' x <- m ; k" := (bind m (fun x => k))
  (at level 10, x name, m at level 100, k at level 200).

(** [st.error(msg)] *)
Definition st_error (msg : text) : M unit :=
  fun w => (tt, {| errors := errors w ++ [msg]; calls := calls w;
                   session_state := session_state w |}).

(** [model.generate_content(prompt)] and [response.text], for the model
    configured with [key]. *)
Definition call_provider (key prompt : text) : M (text + text) :=
  fun w => (generate_content (length (calls w)) key prompt,
            {| errors := errors w; calls := calls w ++ [(key, prompt)];
               session_state := session_state w |}).

(** [st.session_state[k] = v] *)
Definition session_set (k : text) (v : pyval) : M unit :=
  fun w => (tt, {| errors := errors w; calls := calls w;
                   session_state := <[k := v]> (session_state w) |}).

(** [generate_lab()]: the value returned, [PyNone] being Python's [None].
    [genai.configure] and [genai.GenerativeModel] only record the key and
    the model name; the one call to the provider is [generate_content].
    Every exception of the [try] block ends in the [except] branch. *)
Definition generate_lab (ui : Controls) : M pyval :=
  if bool_decide (api_key ui = []) then
    do _ <- st_error (py "Please enter the API Key in the sidebar!");
    ret PyNone
  else
    do response <- call_provider (api_key ui)
                     (get_lab_prompt (topic ui) (difficulty ui));
    match response with
    | inl e =>
      do _ <- st_error (py "Error generating lab: " ++ e);
      ret PyNone
    | inr response_text =>
      let clean_text := strip_fences response_text in
      match json_loads clean_text with
      | Some lab_data => ret lab_data
      | None =>
        do _ <- st_error (py "Error generating lab: "
                          ++ decode_error_text clean_text);
        ret PyNone
      end
    end.

(** The body of [if st.sidebar.button("Generate New Lab"):]. *)
Definition on_generate (ui : Controls) : M unit :=
  do lab_data <- generate_lab ui;
  if truthy lab_data then session_set (py "lab_data") lab_data else ret tt.

(** The graph being drawn, as the edges given to [graph.edge], oldest
    first. *)
Definition Digraph : Type := list (text * text).

Definition graph_edge (src dst : text) (graph : Digraph) : Digraph :=
  graph ++ [(src, dst)].

(** The [try] block of the topology loop on one entry: the edge it draws,
    or [None] when an exception makes the loop skip the entry.  An entry
    that is not a string has no [split]; [parts[1]] raises when the entry
    holds no arrow. *)
Definition connection_edge (connection : pyval) : option (text * text) :=
  match connection with
  | PyStr s =>
    let parts := Str.split ARROW s in
    match parts !! 0%nat, parts !! 1%nat with
    | Some part0, Some part1 => Some (Str.strip part0, Str.strip part1)
    | _, _ => None
    end
  | _ => None
  end.

(** [for connection in data['topology_connections']: ...] over a list. *)
Definition topology_loop (connections : list pyval) (graph : Digraph)
  : Digraph :=
  foldl (fun g connection =>
           match connection_edge connection with
           | Some (src, dst) => graph_edge src dst g
           | None => g
           end) graph connections.

(** The edges of a fresh [graphviz.Digraph()] after the loop. *)
Definition topology_edges (connections : list pyval) : Digraph :=
  topology_loop connections [].

(** The world once the provider has been called, and once a message has
    been shown. *)
Definition called (ui : Controls) (w : World) : World :=
  {| errors := errors w;
     calls := calls w ++ [(api_key ui, get_lab_prompt (topic ui) (difficulty ui))];
     session_state := session_state w |}.

Definition reported (msg : text) (w : World) : World :=
  {| errors := errors w ++ [msg]; calls := calls w;
     session_state := session_state w |}.

End App.

(** ** Instances to run the program on *)

(** Numbers kept as the literal they were read from.  The examples below
    hold no number. *)
Definition literal_numbers : PyNumbers :=
  {| pynum := text;
     num_of_literal := fun _ lit => Some lit;
     num_repr := fun lit => lit;
     num_truthy := fun lit => existsb (fun c => (49 <=? c) && (c <=? 57)) lit |}.

(** A provider stub with one fixed outcome. *)
Definition stub_provider (outcome : text + text) : Environment :=
  {| generate_content := fun _ _ _ => outcome;
     decode_error_text := fun _ => py "Expecting value" |}.

(** A text written with ['] for the double quote. *)
Definition dq (s : string) : text :=
  (fun c => if c =? 39 then Chr.DQUOTE else c) <$> py s.

(** The seven keys of a lab, as the prompt names them. *)
Definition LAB_FIELDS : list text :=
  [ py "lab_title"; py "scenario_description"; py "topology_connections";
    py "device_configurations"; py "tasks"; py "solution_commands";
    py "verification_commands" ].

Definition has_field `{PyNumbers} (field : text) (v : pyval) : bool :=
  match v with
  | PyDict d => bool_decide (is_Some (dict_get field d))
  | _ => false
  end.

(** A response with six of the seven keys: [verification_commands] is
    missing. *)
Definition six_field_payload : text :=
  dq "{'lab_title': 'OSPF', 'scenario_description': 'Branch office', 'topology_connections': ['R1 -> S1'], 'device_configurations': {'R1': '10.0.0.1/24'}, 'tasks': ['Step 1'], 'solution_commands': 'router ospf 1'}".

Definition six_field_lab : @pyval literal_numbers :=
  PyDict
    [ (py "lab_title", PyStr (py "OSPF"));
      (py "scenario_description", PyStr (py "Branch office"));
      (py "topology_connections", PyList [PyStr (py "R1 -> S1")]);
      (py "device_configurations",
         PyDict [(py "R1", PyStr (py "10.0.0.1/24"))]);
      (py "tasks", PyList [PyStr (py "Step 1")]);
      (py "solution_commands", PyStr (py "router ospf 1")) ].

Definition some_controls : Controls :=
  {| api_key := py "key"; topic := py "OSPF Single Area";
     difficulty := py "Junior Admin" |}.

Definition empty_world `{PyNumbers} : World :=
  {| errors := []; calls := []; session_state := ∅ |}.


(** ** The topology extractor in the words of the specification *)

(** The text before the first arrow, or the whole text when it holds
    none. *)
Definition before_arrow (s : text) : text :=
  match Str.partition ARROW s with
  | Some (a, _) => a
  | None => s
  end.

(** The extractor as the specification words it: the entry is split at the
    first arrow, and kept when that gives two segments that are not empty
    once trimmed. *)
Definition spec_connection_edge (s : text) : option (text * text) :=
  match Str.partition ARROW s with
  | None => None
  | Some (a, r) =>
    let src := Str.strip a in
    let dst := Str.strip r in
    if bool_decide (src = []) || bool_decide (dst = []) then None
    else Some (src, dst)
  end.

(** The input of the specification's example. *)
Definition example_connections `{PyNumbers} : list pyval :=
  [ PyStr (py "RouterA (G0/0) -> SwitchA (G0/1)");
    PyStr (py "garbage-no-arrow");
    PyStr (py "SwitchA (F0/2) -> PC1") ].

(** A response whose title holds a fence marker, and the same response
    wrapped in the two markers. *)
Definition fenced_title_payload : text :=
  dq "{'lab_title': 'Fence with ``` here'}".

Definition wrapped (j : text) : text := FENCE_JSON ++ j ++ FENCE.

(** ** Labs *)

(** A Unicode scalar value: a code point that is not a surrogate. *)
Definition is_scalar (c : N) : bool :=
  (c <? 55296) || ((57343 <? c) && (c <? 1114112)).

Definition is_text (s : text) : bool := forallb is_scalar s.

Section Labs.
Context `{PyNumbers}.

(** A value made of [None], booleans, strings of scalar values, lists and
    dicts; the keys of a dict are distinct, as they are in Python. *)
Fixpoint well_formed (v : pyval) : bool :=
  match v with
  | PyNone => true
  | PyBool _ => true
  | PyNum _ => false
  | PyStr s => is_text s
  | PyList l => forallb well_formed l
  | PyDict d =>
    forallb (fun kv => is_text kv.1 && well_formed kv.2) d
    && bool_decide (NoDup (d.*1))
  end.

Definition is_str (v : pyval) : bool :=
  match v with PyStr _ => true | _ => false end.

Definition is_str_list (v : pyval) : bool :=
  match v with PyList l => forallb is_str l | _ => false end.

Definition is_str_dict (v : pyval) : bool :=
  match v with PyDict d => forallb (fun kv => is_str kv.2) d | _ => false end.

Definition field_is (test : pyval -> bool) (field : string)
    (d : list (text * pyval)) : bool :=
  match dict_get (py field) d with
  | Some x => test x
  | None => false
  end.

(** A lab with its seven fields, of the types the prompt asks for. *)
Definition is_lab (v : pyval) : bool :=
  well_formed v &&
  match v with
  | PyDict d =>
    field_is is_str "lab_title" d
    && field_is is_str "scenario_description" d
    && field_is is_str_list "topology_connections" d
    && field_is is_str_dict "device_configurations" d
    && field_is is_str_list "tasks" d
    && field_is is_str "solution_commands" d
    && field_is is_str "verification_commands" d
  | _ => false
  end.

End Labs.

(** A lab with all seven fields; the title holds a quote, a backslash, a
    line break and characters beyond ASCII. *)
Definition seven_field_lab : @pyval literal_numbers :=
  PyDict
    [ (py "lab_title", PyStr (dq "OSPF 'area 0' \ lab" ++ [10; 233; 8364; 128512]));
      (py "scenario_description", PyStr (py "Branch office"));
      (py "topology_connections",
         PyList [PyStr (py "R1 (G0/0) -> S1 (G0/1)"); PyStr (py "S1 (F0/1) -> PC1")]);
      (py "device_configurations",
         PyDict [(py "R1", PyStr (py "10.0.0.1/24")); (py "PC1", PyStr (py "10.0.0.10/24"))]);
      (py "tasks", PyList [PyStr (py "Step 1"); PyStr (py "Step 2")]);
      (py "solution_commands", PyStr (py "router ospf 1"));
      (py "verification_commands", PyStr (py "show ip ospf neighbor")) ].

(** Linear arithmetic with division and remainder by a constant. *)
Ltac div_lia := zify; Z.to_euclidean_division_equations; lia.

(** ** The page *)

(** The text Python writes in an f-string for a number, a list or a dict
    ([str] of the value) stays abstract. *)
Class PyRepr `{PyNumbers} := {
  repr_other : pyval -> text
}.

(** The exceptions of the display code. *)
Inductive pyexn : Type :=
| KeyError (key : text)
| TypeError.

(** Where an element goes: the page itself, one of the two columns, or the
    expander. *)
Inductive place : Type := Page | Column1 | Column2 | Expander.

Section Display.
Context `{PyNumbers} `{!PyRepr}.

(** The calls of the script that put an element on the page, with their
    arguments. *)
Inductive element : Type :=
| StTitle (body : text)
| StMarkdown (body : text)
| StHeader (body : text)
| StInfo (body : text)
| StColumns
| StSubheader (body : text)
| StGraphvizChart (graph : Digraph)
| StJson (body : pyval)
| StWrite (body : pyval)
| StDivider
| StExpander (label : text)
| StCode (body : pyval) (language : text)
| StDownloadButton (label data file_name mime : text).

(** [str(v)], as a field of an f-string writes it. *)
Definition py_str (v : pyval) : text :=
  match v with
  | PyStr s => s
  | PyNone => py "None"
  | PyBool true => py "True"
  | PyBool false => py "False"
  | _ => repr_other v
  end.

(** [str(n)] for a natural number. *)
Definition decimal (n : nat) : text := py (pretty n).

(** [data[key]] for a string key: only a dict takes one. *)
Definition subscript (data : pyval) (key : string) : pyexn + pyval :=
  match data with
  | PyDict d =>
    match dict_get (py key) d with
    | Some v => inr v
    | None => inl (KeyError (py key))
    end
  | _ => inl TypeError
  end.

(** The items a [for] loop takes from a value: the elements of a list, the
    keys of a dict, the characters of a string. *)
Definition iterate (v : pyval) : pyexn + list pyval :=
  match v with
  | PyList l => inr l
  | PyDict d => inr ((fun kv => PyStr kv.1) <$> d)
  | PyStr s => inr ((fun c => PyStr [c]) <$> s)
  | _ => inl TypeError
  end.

(** A run of the display code: the elements put on the page so far, and
    the exception that ends the run if there is one. *)
Definition R (A : Type) : Type :=
  list (place * element) -> (pyexn + A) * list (place * element).

Definition r_ret {A} (a : A) : R A := fun out => (inr a, out).

Definition r_bind {A B} (m : R A) (k : A -> R B) : R B :=
  fun out =>
    match m out with
    | (inl e, out') => (inl e, out')
    | (inr a, out') => k a out'
    end.

Notation "'run' x <- m ; k" := (r_bind m (fun x => k))
  (at level 10, x name, m at level 100, k at level 200).

(** A call that puts an element on the page.  The call is taken to
    succeed: Streamlit itself refuses a text that holds a surrogate code
    point, so what is stated below about the elements put on the page is
    stated for texts of Unicode scalar values, or does not depend on the
    call succeeding. *)
Definition emit (p : place) (e : element) : R unit :=
  fun out => (inr tt, out ++ [(p, e)]).

Definition lift {A} (x : pyexn + A) : R A := fun out => (x, out).

(** [for i, task in enumerate(tasks): st.write(...)], from index [i]. *)
Fixpoint write_tasks (i : nat) (tasks : list pyval) : R unit :=
  match tasks with
  | [] => r_ret tt
  | task :: rest =>
    run _ <- emit Column2
               (StWrite (PyStr (py "**" ++ decimal (i + 1) ++ py ".** "
                                ++ py_str task)));
    write_tasks (S i) rest
  end.

(** The name of the download: [f"lab_{topic.replace(' ', '_')}.json"]. *)
Definition download_file_name (ui : Controls) : text :=
  py "lab_" ++ Str.replace (py " ") (py "_") (topic ui) ++ py ".json".

(** The body of [if 'lab_data' in st.session_state:], on the stored value.
    The graph is drawn left to right. *)
Definition display (ui : Controls) (data : pyval) : R unit :=
  run title <- lift (subscript data "lab_title");
  run _ <- emit Page (StHeader (py "Lab: " ++ py_str title));
  run scenario <- lift (subscript data "scenario_description");
  run _ <- emit Page
             (StInfo ([128221] ++ py " **Scenario:** " ++ py_str scenario));
  run _ <- emit Page StColumns;
  run _ <- emit Column1 (StSubheader ([128205] ++ py " Topology Map"));
  run connections <- lift (subscript data "topology_connections");
  run entries <- lift (iterate connections);
  run _ <- emit Column1 (StGraphvizChart (topology_edges entries));
  run _ <- emit Column1 (StSubheader (py "IP Table / Constraints"));
  run configurations <- lift (subscript data "device_configurations");
  run _ <- emit Column1 (StJson configurations);
  run _ <- emit Column2 (StSubheader ([128736; 65039] ++ py " Mission Tasks"));
  run tasks <- lift (subscript data "tasks");
  run items <- lift (iterate tasks);
  run _ <- write_tasks 0 items;
  run _ <- emit Page StDivider;
  run _ <- emit Page
             (StExpander ([128272] ++ py " REVEAL SOLUTION KEY (Instructor Only)"));
  run _ <- emit Expander (StSubheader (py "Verification"));
  run verification <- lift (subscript data "verification_commands");
  run _ <- emit Expander (StWrite verification);
  run _ <- emit Expander (StSubheader (py "IOS Commands"));
  run solution <- lift (subscript data "solution_commands");
  run _ <- emit Expander (StCode solution (py "bash"));
  emit Page
    (StDownloadButton (py "Download Lab as JSON") (json_dumps 4 data)
       (download_file_name ui) (py "application/json")).

(** The two elements that head every page. *)
Definition page_head : list (place * element) :=
  [ (Page, StTitle ([9889] ++ py " Infinite CCNA Lab Generator"));
    (Page, StMarkdown (py "### For: Dad's IT Firm | Powered by AI")) ].

End Display.

Section Script.
Context `{PyNumbers} `{Environment} `{!PyRepr}.

(** One run of the script from the title on, with the values of the sidebar
    controls and whether the button was clicked: the elements it puts on the
    page (the messages of [st.error] are kept in the world), the exception
    that ends it if there is one, and the world it leaves. *)
Definition run_script (clicked : bool) (ui : Controls) (w : World)
  : ((pyexn + unit) * list (place * element)) * World :=
  let w' := if clicked then (on_generate ui w).2 else w in
  match session_state w' !! py "lab_data" with
  | Some data => (display ui data page_head, w')
  | None => ((inr tt, page_head), w')
  end.

End Script.

(** Formatting left to the literal: an instance to run the display on. *)
Definition plain_repr : @PyRepr literal_numbers :=
  {| repr_other := fun _ => py "<object>" |}.

(** ** Predicates on entries and values *)

Section Predicates.
Context `{PyNumbers}.

(** An entry that is a string holding an arrow. *)
Definition has_arrow (connection : pyval) : bool :=
  match connection with
  | PyStr s => Str.contains ARROW s
  | _ => false
  end.

(** The keys of every dict of the value are distinct. *)
Fixpoint keys_distinct (v : pyval) : bool :=
  match v with
  | PyList l => forallb keys_distinct l
  | PyDict d =>
    forallb (fun kv => keys_distinct kv.2) d && bool_decide (NoDup (d.*1))
  | _ => true
  end.

(** A string of Unicode scalar values. *)
Definition is_text_str (v : pyval) : bool :=
  match v with
  | PyStr s => is_text s
  | _ => false
  end.

(** The value holds no number. *)
Fixpoint number_free (v : pyval) : bool :=
  match v with
  | PyNum _ => false
  | PyList l => forallb number_free l
  | PyDict d => forallb (fun kv => number_free kv.2) d
  | _ => true
  end.

End Predicates.

(** A character of a JSON text written with [ensure_ascii]: a line feed or
    a printable ASCII character. *)
Definition is_plain_ascii (c : N) : bool :=
  (c =? 10) || ((32 <=? c) && (c <=? 126)).

(** * Properties *)

(** ** The lab generator *)

Section GeneratorFacts.
Context `{PyNumbers} `{Environment}.

Lemma generate_lab_no_key ui w :
  api_key ui = [] ->
  generate_lab ui w =
    (PyNone,
     {| errors := errors w ++ [py "Please enter the API Key in the sidebar!"];
        calls := calls w; session_state := session_state w |}).
Proof.
  intros Hkey. unfold generate_lab. rewrite Hkey.
  rewrite bool_decide_eq_true_2 by reflexivity. reflexivity.
Qed.

Lemma generate_lab_provider_failure ui w e :
  api_key ui <> [] ->
  generate_content (length (calls w)) (api_key ui)
    (get_lab_prompt (topic ui) (difficulty ui)) = inl e ->
  generate_lab ui w =
    (PyNone, reported (py "Error generating lab: " ++ e) (called ui w)).
Proof.
  intros Hkey Hout. unfold generate_lab.
  rewrite bool_decide_eq_false_2 by assumption.
  unfold bind, call_provider. rewrite Hout. reflexivity.
Qed.

Lemma generate_lab_decode_failure ui w t :
  api_key ui <> [] ->
  generate_content (length (calls w)) (api_key ui)
    (get_lab_prompt (topic ui) (difficulty ui)) = inr t ->
  json_loads (strip_fences t) = None ->
  generate_lab ui w =
    (PyNone,
     reported (py "Error generating lab: " ++ decode_error_text (strip_fences t))
       (called ui w)).
Proof.
  intros Hkey Hout Hdec. unfold generate_lab.
  rewrite bool_decide_eq_false_2 by assumption.
  unfold bind, call_provider. rewrite Hout. cbn zeta. rewrite Hdec.
  reflexivity.
Qed.

Lemma generate_lab_decoded ui w t v :
  api_key ui <> [] ->
  generate_content (length (calls w)) (api_key ui)
    (get_lab_prompt (topic ui) (difficulty ui)) = inr t ->
  json_loads (strip_fences t) = Some v ->
  generate_lab ui w = (v, called ui w).
Proof.
  intros Hkey Hout Hdec. unfold generate_lab.
  rewrite bool_decide_eq_false_2 by assumption.
  unfold bind, call_provider. rewrite Hout. cbn zeta. rewrite Hdec.
  reflexivity.
Qed.

(** The provider log after [generate_lab]: one more call, or none without
    a key. *)
Lemma generate_lab_calls ui w :
  calls (generate_lab ui w).2 =
    calls w ++ (if bool_decide (api_key ui = []) then []
                else [(api_key ui, get_lab_prompt (topic ui) (difficulty ui))]).
Proof.
  unfold generate_lab. case_bool_decide as Hkey.
  - cbn. rewrite app_nil_r. reflexivity.
  - unfold bind, call_provider.
    destruct (generate_content _ _ _) as [e | t]; [reflexivity |].
    cbn zeta. destruct (json_loads _); reflexivity.
Qed.

Lemma generate_lab_session ui w :
  session_state (generate_lab ui w).2 = session_state w.
Proof.
  unfold generate_lab. case_bool_decide as Hkey; [reflexivity |].
  unfold bind, call_provider.
  destruct (generate_content _ _ _) as [e | t]; [reflexivity |].
  cbn zeta. destruct (json_loads _); reflexivity.
Qed.

Lemma on_generate_world ui w :
  (on_generate ui w).2 =
    let '(lab_data, w') := generate_lab ui w in
    if truthy lab_data
    then {| errors := errors w'; calls := calls w';
            session_state := <[py "lab_data" := lab_data]> (session_state w') |}
    else w'.
Proof.
  unfold on_generate, bind. destruct (generate_lab ui w) as [v w'].
  destruct (truthy v); reflexivity.
Qed.

End GeneratorFacts.

(** C4: invoked with an empty credential, the lab generator returns no lab
    ([None]), shows the missing-key message and makes no call to the
    provider: the log of provider calls is the one it started with. *)
Theorem C4_missing_credential `{PyNumbers} `{Environment}
    (t d : text) (w : World) :
  let ui := {| api_key := []; topic := t; difficulty := d |} in
  (generate_lab ui w).1 = PyNone /\
  errors (generate_lab ui w).2 =
    errors w ++ [py "Please enter the API Key in the sidebar!"] /\
  calls (generate_lab ui w).2 = calls w /\
  length (calls (generate_lab ui w).2) = length (calls w).
Proof.
  intros ui. rewrite (generate_lab_no_key ui w) by reflexivity.
  cbn. repeat split; reflexivity.
Qed.

(** C9: one invocation of the lab generator, and one run of the handler of
    the "Generate New Lab" button, add at most one call to the log of
    provider calls, whatever the outcome of the call: exactly one with a
    credential, none without. *)
Theorem C9_at_most_one_call `{PyNumbers} `{Environment}
    (ui : Controls) (w : World) :
  let made :=
    if bool_decide (api_key ui = []) then []
    else [(api_key ui, get_lab_prompt (topic ui) (difficulty ui))] in
  calls (generate_lab ui w).2 = calls w ++ made /\
  calls (on_generate ui w).2 = calls w ++ made /\
  (length (calls (generate_lab ui w).2) <= length (calls w) + 1)%nat /\
  (length (calls (on_generate ui w).2) <= length (calls w) + 1)%nat.
Proof.
  intros made.
  assert (Hgen : calls (generate_lab ui w).2 = calls w ++ made)
    by apply generate_lab_calls.
  assert (Hon : calls (on_generate ui w).2 = calls w ++ made).
  { rewrite on_generate_world, <- Hgen.
    destruct (generate_lab ui w) as [v w']. destruct (truthy v); reflexivity. }
  assert (Hlen : (length made <= 1)%nat).
  { unfold made. case_bool_decide; cbn; lia. }
  rewrite Hgen, Hon, length_app. repeat split; lia.
Qed.




(** C1 (as amended): whenever the cleaned response parses as JSON, the lab
    generator returns the parsed value as it is and shows no error; it does
    not look for the seven fields. *)
Theorem C1_parsed_value_returned `{PyNumbers} `{Environment}
    (ui : Controls) (w : World) (t : text) (v : pyval) :
  api_key ui <> [] ->
  generate_content (length (calls w)) (api_key ui)
    (get_lab_prompt (topic ui) (difficulty ui)) = inr t ->
  json_loads (strip_fences t) = Some v ->
  (generate_lab ui w).1 = v /\
  errors (generate_lab ui w).2 = errors w.
Proof.
  intros Hkey Hout Hdec.
  rewrite (generate_lab_decoded ui w t v) by assumption.
  split; reflexivity.
Qed.

Lemma C1_witness :
  let env := stub_provider (inr six_field_payload) in
  (@generate_lab literal_numbers env some_controls empty_world).1
  = six_field_lab /\
  errors (@generate_lab literal_numbers env some_controls empty_world).2 = [].
Proof.
  intros env.
  apply (@C1_parsed_value_returned literal_numbers env some_controls
           empty_world six_field_payload six_field_lab).
  - discriminate.
  - reflexivity.
  - vm_compute. reflexivity.
Defined.

(** C1 fails as stated: a response that parses as JSON and has no
    [verification_commands] key makes the lab generator return the
    six-field value, not [None], without any error shown, and the handler
    stores it. *)
Lemma C1_counterexample :
  let env := stub_provider (inr six_field_payload) in
  let run := @generate_lab literal_numbers env some_controls empty_world in
  @json_loads literal_numbers six_field_payload = Some six_field_lab /\
  In (py "verification_commands") LAB_FIELDS /\
  has_field (py "verification_commands") six_field_lab = false /\
  ~ (run.1 = PyNone /\ errors run.2 <> []) /\
  run.1 = six_field_lab /\ errors run.2 = [] /\
  session_state (@on_generate literal_numbers env some_controls empty_world).2
    !! py "lab_data" = Some six_field_lab.
Proof.
  intros env run.
  assert (Hrun : run = (six_field_lab, called some_controls empty_world))
    by (vm_compute; reflexivity).
  split; [vm_compute; reflexivity |].
  split; [cbn; tauto |].
  split; [vm_compute; reflexivity |].
  rewrite Hrun. cbn [fst snd].
  split; [intros [Hnone _]; discriminate Hnone |].
  split; [reflexivity |].
  split; [reflexivity |].
  vm_compute. reflexivity.
Qed.

(** ** The prompt builder *)

(** C2 (as amended): for each of the five topics and three difficulty
    levels, the prompt holds the topic and the difficulty as they are, and
    holds the three-backtick marker exactly once, in the sentence that tells
    the model not to add it. *)
Theorem C2_prompt_contents (t d : text) :
  In t TOPICS -> In d DIFFICULTIES ->
  Str.contains t (get_lab_prompt t d) = true /\
  Str.contains d (get_lab_prompt t d) = true /\
  Str.count FENCE (get_lab_prompt t d) = 1%nat /\
  Str.contains (py "Do not add markdown backticks (```json).")
    (get_lab_prompt t d) = true.
Proof.
  intros Ht Hd.
  destruct Ht as [<- | [<- | [<- | [<- | [<- | []]]]]];
    destruct Hd as [<- | [<- | [<- | []]]];
    vm_compute; repeat split; reflexivity.
Qed.

Lemma C2_witness :
  let p := get_lab_prompt (py "VLANs & Trunking") (py "Network Engineer") in
  Str.contains (py "VLANs & Trunking") p = true /\
  Str.contains (py "Network Engineer") p = true /\
  Str.count FENCE p = 1%nat /\
  Str.contains (py "Do not add markdown backticks (```json).") p = true.
Proof.
  intros p.
  apply (C2_prompt_contents (py "VLANs & Trunking") (py "Network Engineer")).
  - cbn. tauto.
  - cbn. tauto.
Defined.

(** C2 fails as stated: the prompt for the first topic and the first
    difficulty level holds the three-backtick marker. *)
Lemma C2_counterexample :
  let p := get_lab_prompt (py "OSPF Single Area") (py "Junior Admin") in
  In (py "OSPF Single Area") TOPICS /\ In (py "Junior Admin") DIFFICULTIES /\
  Str.contains FENCE p = true /\
  ~ (Str.contains (py "OSPF Single Area") p = true /\
     Str.contains (py "Junior Admin") p = true /\
     Str.contains FENCE p = false).
Proof.
  intros p.
  assert (Hfence : Str.contains FENCE p = true) by (vm_compute; reflexivity).
  split; [cbn; tauto |]. split; [cbn; tauto |].
  split; [assumption |].
  intros (_ & _ & Hno). rewrite Hfence in Hno. discriminate Hno.
Qed.

(** ** The topology extractor *)

Section SplitFacts.

Lemma split_from_skip sep k cur s :
  Str.split_from sep k cur s = Str.split_from sep 0 cur (drop k s).
Proof.
  revert k. induction s as [| c s IH]; intros k.
  - destruct k; reflexivity.
  - destruct k as [| k]; [reflexivity |]. cbn. apply IH.
Qed.

Lemma split_from_partition p sep cur s :
  Str.split_from (p :: sep) 0 cur s =
    match Str.partition (p :: sep) s with
    | None => [cur ++ s]
    | Some (a, r) => (cur ++ a) :: Str.split_from (p :: sep) 0 [] r
    end.
Proof.
  revert cur. induction s as [| c s IH]; intros cur.
  - cbn. rewrite app_nil_r. reflexivity.
  - cbn [Str.split_from Str.partition].
    destruct (Str.startswith (p :: sep) (c :: s)).
    + rewrite app_nil_r, split_from_skip. cbn. rewrite Nat.sub_0_r.
      reflexivity.
    + rewrite IH. destruct (Str.partition (p :: sep) s) as [[a r] |].
      * rewrite <- app_assoc. reflexivity.
      * rewrite <- app_assoc. reflexivity.
Qed.

Lemma split_partition p sep s :
  Str.split (p :: sep) s =
    match Str.partition (p :: sep) s with
    | None => [s]
    | Some (a, r) => a :: Str.split (p :: sep) r
    end.
Proof. unfold Str.split. rewrite split_from_partition. reflexivity. Qed.

End SplitFacts.

Section ExtractorFacts.
Context `{PyNumbers}.

Lemma connection_edge_str (s : text) :
  connection_edge (PyStr s) =
    match Str.partition ARROW s with
    | None => None
    | Some (a, r) => Some (Str.strip a, Str.strip (before_arrow r))
    end.
Proof.
  unfold connection_edge, before_arrow, ARROW.
  rewrite split_partition.
  destruct (Str.partition _ s) as [[a r] |]; [| reflexivity].
  rewrite split_partition.
  destruct (Str.partition _ r) as [[b r'] |]; reflexivity.
Qed.

Lemma topology_loop_omap (connections : list pyval) (graph : Digraph) :
  topology_loop connections graph = graph ++ omap connection_edge connections.
Proof.
  unfold topology_loop. revert graph.
  induction connections as [| c cs IH]; intros graph.
  - cbn. rewrite app_nil_r. reflexivity.
  - cbn [foldl omap list_omap]. rewrite IH.
    destruct (connection_edge c) as [[src dst] |]; [| reflexivity].
    unfold graph_edge. rewrite <- app_assoc. reflexivity.
Qed.

End ExtractorFacts.

(** C3 (as amended): on an entry that is a string the extractor splits at
    every arrow.  It skips the entry when it holds no arrow; otherwise it
    draws the edge from the trimmed text before the first arrow to the
    trimmed text between the first arrow and the second (to the end of the
    entry when there is no second), whether or not these are empty.  An
    entry that is not a string is skipped. *)
Theorem C3_first_two_segments `{PyNumbers} (connection : pyval) :
  connection_edge connection =
    match connection with
    | PyStr s =>
      match Str.partition ARROW s with
      | None => None
      | Some (a, r) => Some (Str.strip a, Str.strip (before_arrow r))
      end
    | _ => None
    end.
Proof.
  destruct connection; try reflexivity. apply connection_edge_str.
Qed.

(** C3 fails as stated: an entry with two arrows gives the edge to the
    middle segment, where a split at the first arrow gives the edge to all
    that follows it; and an entry that starts with the arrow is drawn with
    an empty source, where the specification discards it. *)
Lemma C3_counterexample :
  @connection_edge literal_numbers (PyStr (py "R1 -> S1 -> PC1"))
    = Some (py "R1", py "S1") /\
  spec_connection_edge (py "R1 -> S1 -> PC1") = Some (py "R1", py "S1 -> PC1") /\
  @connection_edge literal_numbers (PyStr (py "-> PC1")) = Some ([], py "PC1") /\
  spec_connection_edge (py "-> PC1") = None /\
  ~ (forall s, @connection_edge literal_numbers (PyStr s) = spec_connection_edge s).
Proof.
  assert (H1 : @connection_edge literal_numbers (PyStr (py "R1 -> S1 -> PC1"))
                 = Some (py "R1", py "S1")) by (vm_compute; reflexivity).
  assert (H2 : spec_connection_edge (py "R1 -> S1 -> PC1")
                 = Some (py "R1", py "S1 -> PC1")) by (vm_compute; reflexivity).
  split; [exact H1 |]. split; [exact H2 |].
  split; [vm_compute; reflexivity |]. split; [vm_compute; reflexivity |].
  intros Hall. specialize (Hall (py "R1 -> S1 -> PC1")).
  rewrite H1, H2 in Hall. vm_compute in Hall. discriminate Hall.
Qed.

(** C6: on the three entries of the example the extractor gives the two
    edges of the well-formed entries, in that order, and drops the middle
    entry.  On every list the edges come in the order of the entries they
    are drawn from: the result is the list of the edges of the entries that
    give one, and the edges of a list followed by another are the edges of
    the first followed by those of the second. *)
Theorem C6_edges_in_input_order `{PyNumbers} :
  topology_edges example_connections =
    [ (py "RouterA (G0/0)", py "SwitchA (G0/1)");
      (py "SwitchA (F0/2)", py "PC1") ] /\
  (forall connections,
     topology_edges connections = omap connection_edge connections) /\
  (forall connections1 connections2,
     topology_edges (connections1 ++ connections2) =
       topology_edges connections1 ++ topology_edges connections2).
Proof.
  assert (Homap : forall cs, topology_edges cs = omap connection_edge cs).
  { intros cs. unfold topology_edges. rewrite topology_loop_omap. reflexivity. }
  split; [| split].
  - vm_compute. reflexivity.
  - exact Homap.
  - intros cs1 cs2. rewrite !Homap. apply omap_app.
Qed.

(** ** The cleanup of the response *)

Section ReplaceFacts.

Lemma startswith_app (a b s : text) :
  Str.startswith (a ++ b) s = true -> Str.startswith a s = true.
Proof.
  revert s. induction a as [| x a IH]; intros s Hs; [reflexivity |].
  destruct s as [| c s]; [discriminate Hs |]. cbn in *.
  apply andb_true_iff in Hs as [Hx Hs]. rewrite Hx. cbn. apply IH, Hs.
Qed.

Lemma contains_app (a b s : text) :
  Str.contains (a ++ b) s = true -> Str.contains a s = true.
Proof.
  induction s as [| c s IH]; cbn [Str.contains]; intros Hs.
  - rewrite orb_false_r in Hs. rewrite (startswith_app a b _ Hs). reflexivity.
  - apply orb_true_iff in Hs as [Hs | Hs].
    + rewrite (startswith_app a b _ Hs). reflexivity.
    + rewrite (IH Hs). apply orb_true_r.
Qed.

Lemma contains_cons_false (sub : text) (c : N) (s : text) :
  Str.contains sub (c :: s) = false ->
  Str.startswith sub (c :: s) = false /\ Str.contains sub s = false.
Proof. cbn [Str.contains]. intros Hs. apply orb_false_iff in Hs. exact Hs. Qed.

Lemma replace_from_skip (old new : text) (k : nat) (s : text) :
  Str.replace_from old new k s = Str.replace_from old new 0 (drop k s).
Proof.
  revert k. induction s as [| c s IH]; intros k.
  - destruct k; reflexivity.
  - destruct k as [| k]; [reflexivity |]. cbn. apply IH.
Qed.

Lemma replace_from_cons (p : N) (old new : text) (c : N) (s : text) :
  Str.replace_from (p :: old) new 0 (c :: s) =
    if Str.startswith (p :: old) (c :: s)
    then new ++ Str.replace_from (p :: old) new 0 (drop (length old) s)
    else c :: Str.replace_from (p :: old) new 0 s.
Proof.
  cbn [Str.replace_from]. destruct (Str.startswith (p :: old) (c :: s)).
  - rewrite replace_from_skip. cbn. rewrite Nat.sub_0_r. reflexivity.
  - reflexivity.
Qed.

(** A text that does not hold [old] is left as it is. *)
Lemma replace_absent (p : N) (old new s : text) :
  Str.contains (p :: old) s = false ->
  Str.replace (p :: old) new s = s.
Proof.
  unfold Str.replace. induction s as [| c s IH]; intros Hs; [reflexivity |].
  apply contains_cons_false in Hs as [Hhead Htail].
  rewrite replace_from_cons, Hhead, (IH Htail). reflexivity.
Qed.

Lemma startswith_fence (s : text) :
  Str.startswith FENCE s = true <-> exists t, s = 96 :: 96 :: 96 :: t.
Proof.
  unfold FENCE. split.
  - destruct s as [| a [| b [| c t]]]; cbn [Str.startswith]; intros Hs;
      rewrite ?andb_false_r in Hs; try discriminate Hs.
    rewrite andb_true_r in Hs.
    apply andb_true_iff in Hs as [Ha Hs]. apply andb_true_iff in Hs as [Hb Hc].
    apply N.eqb_eq in Ha, Hb, Hc. subst. eexists. reflexivity.
  - intros [t ->]. reflexivity.
Qed.

Lemma startswith_two_backticks (s : text) :
  Str.startswith [96; 96] s = true <-> exists t, s = 96 :: 96 :: t.
Proof.
  split.
  - destruct s as [| a [| b t]]; cbn [Str.startswith]; intros Hs;
      rewrite ?andb_false_r in Hs; try discriminate Hs.
    rewrite andb_true_r in Hs. apply andb_true_iff in Hs as [Ha Hb].
    apply N.eqb_eq in Ha, Hb. subst. eexists. reflexivity.
  - intros [t ->]. reflexivity.
Qed.

Lemma replace_fence_cons (c : N) (s : text) :
  Str.replace FENCE [] (c :: s) =
    if Str.startswith FENCE (c :: s)
    then Str.replace FENCE [] (drop 2 s)
    else c :: Str.replace FENCE [] s.
Proof. unfold Str.replace, FENCE. apply replace_from_cons. Qed.

(** Removing the fences from the left leaves two backticks at the head of
    the result only where the text had them. *)
Lemma replace_fence_head (s : text) :
  Str.startswith [96; 96] (Str.replace FENCE [] s) = true ->
  Str.startswith [96; 96] s = true.
Proof.
  destruct s as [| c s]; [intros Hs; exact Hs |].
  rewrite replace_fence_cons.
  destruct (Str.startswith FENCE (c :: s)) eqn:Hhead.
  - intros _. apply startswith_fence in Hhead as [t Ht].
    rewrite Ht. reflexivity.
  - intros Hs. apply startswith_two_backticks in Hs as [t Ht].
    injection Ht as -> Ht.
    destruct s as [| b s']; [discriminate Ht |].
    change (Str.replace FENCE [] (b :: s') = 96 :: t) in Ht.
    rewrite replace_fence_cons in Ht.
    destruct (Str.startswith FENCE (b :: s')) eqn:Hb.
    + apply startswith_fence in Hb as [t' Ht']. rewrite Ht'.
      reflexivity.
    + injection Ht as -> _. reflexivity.
Qed.

(** No fence is left once the fences are removed. *)
Lemma replace_fence_clean (s : text) :
  Str.contains FENCE (Str.replace FENCE [] s) = false.
Proof.
  remember (length s) as n eqn:Hn. revert s Hn.
  induction n as [n IH] using lt_wf_ind. intros s Hn.
  destruct s as [| c s]; [reflexivity |].
  rewrite replace_fence_cons.
  destruct (Str.startswith FENCE (c :: s)) eqn:Hhead.
  - apply (IH (length (drop 2 s))); [| reflexivity].
    rewrite Hn, length_drop. cbn. lia.
  - assert (Htail : Str.contains FENCE (Str.replace FENCE [] s) = false).
    { apply (IH (length s)); [rewrite Hn; cbn; lia | reflexivity]. }
    cbn [Str.contains]. rewrite Htail, orb_false_r.
    destruct (Str.startswith FENCE (c :: Str.replace FENCE [] s)) eqn:Hout;
      [| reflexivity].
    apply startswith_fence in Hout as [t Ht]. injection Ht as -> Ht.
    change (Str.replace FENCE [] s = 96 :: 96 :: t) in Ht.
    assert (Hs : Str.startswith [96; 96] s = true).
    { apply replace_fence_head. rewrite Ht. reflexivity. }
    apply startswith_two_backticks in Hs as [t' ->].
    discriminate Hhead.
Qed.

Lemma strip_fences_clean (raw : text) :
  Str.contains FENCE (strip_fences raw) = false /\
  Str.contains FENCE_JSON (strip_fences raw) = false.
Proof.
  assert (Hclean : Str.contains FENCE (strip_fences raw) = false)
    by apply replace_fence_clean.
  split; [exact Hclean |].
  destruct (Str.contains FENCE_JSON (strip_fences raw)) eqn:Hjson;
    [| reflexivity].
  apply (contains_app FENCE (py "json")) in Hjson.
  rewrite Hclean in Hjson. discriminate Hjson.
Qed.

(** A response wrapped in the two fence markers. *)
Lemma fence_json_in_tail (j : text) :
  Str.contains FENCE_JSON (j ++ FENCE) = true -> Str.contains FENCE j = true.
Proof.
  induction j as [| c j IH]; intros Hj.
  - vm_compute in Hj. discriminate Hj.
  - cbn [app Str.contains] in Hj. apply orb_true_iff in Hj as [Hj | Hj].
    + destruct j as [| x [| y j']].
      * unfold FENCE_JSON, FENCE in Hj. cbn [app Str.startswith] in Hj.
        rewrite ?andb_false_r in Hj. discriminate Hj.
      * unfold FENCE_JSON, FENCE in Hj. cbn [app Str.startswith] in Hj.
        rewrite ?andb_false_r in Hj. discriminate Hj.
      * apply (startswith_app FENCE (py "json")) in Hj.
        apply startswith_fence in Hj as [t Ht].
        cbn [app] in Ht. injection Ht as -> -> -> _. reflexivity.
    + cbn [Str.contains]. rewrite (IH Hj). apply orb_true_r.
Qed.

Lemma replace_fence_tail (j : text) :
  Str.contains FENCE j = false -> Str.replace FENCE [] (j ++ FENCE) = j.
Proof.
  induction j as [| c j IH]; intros Hj; [reflexivity |].
  apply contains_cons_false in Hj as [Hhead Htail].
  cbn [app]. rewrite replace_fence_cons.
  destruct (Str.startswith FENCE (c :: j ++ FENCE)) eqn:Hwhole.
  - apply startswith_fence in Hwhole as [t Ht].
    destruct j as [| x [| y j']]; cbn [app] in Ht.
    + injection Ht as -> _. reflexivity.
    + injection Ht as -> -> _. reflexivity.
    + injection Ht as -> -> -> _. discriminate Hhead.
  - rewrite (IH Htail). reflexivity.
Qed.

Lemma strip_fences_wrapped (j : text) :
  Str.contains FENCE j = false ->
  strip_fences (wrapped j) = j.
Proof.
  intros Hj. unfold strip_fences, wrapped.
  assert (Hhead : Str.replace FENCE_JSON [] (FENCE_JSON ++ j ++ FENCE)
                  = Str.replace FENCE_JSON [] (j ++ FENCE)).
  { unfold Str.replace, FENCE_JSON. cbn [app]. rewrite replace_from_cons.
    cbn [Str.startswith length drop app]. rewrite !N.eqb_refl. reflexivity. }
  rewrite Hhead.
  assert (Habsent : Str.contains FENCE_JSON (j ++ FENCE) = false).
  { destruct (Str.contains FENCE_JSON (j ++ FENCE)) eqn:Hc; [| reflexivity].
    apply fence_json_in_tail in Hc. rewrite Hj in Hc. discriminate Hc. }
  unfold FENCE_JSON at 1. rewrite replace_absent by exact Habsent.
  apply replace_fence_tail, Hj.
Qed.

End ReplaceFacts.

(** C5 (as amended): when a JSON text that holds no three-backtick
    sequence comes wrapped in the two fence markers, the cleanup gives back
    the JSON text itself, and parsing the cleaned text succeeds, with the
    value of the JSON text. *)
Theorem C5_wrapped_response `{PyNumbers} (j : text) (v : pyval) :
  Str.contains FENCE j = false ->
  json_loads j = Some v ->
  strip_fences (wrapped j) = j /\
  json_loads (strip_fences (wrapped j)) = Some v.
Proof.
  intros Hj Hv. rewrite (strip_fences_wrapped j Hj). split; [reflexivity | exact Hv].
Qed.

Lemma C5_witness :
  strip_fences (wrapped six_field_payload) = six_field_payload /\
  @json_loads literal_numbers (strip_fences (wrapped six_field_payload))
  = Some six_field_lab.
Proof.
  apply (@C5_wrapped_response literal_numbers six_field_payload six_field_lab).
  - vm_compute. reflexivity.
  - vm_compute. reflexivity.
Defined.

(** C5 fails as stated: a JSON text whose title holds a fence marker,
    wrapped in the two markers, is not what the cleanup gives back: the
    marker inside the title is gone as well. *)
Lemma C5_counterexample :
  @json_loads literal_numbers fenced_title_payload
  = Some (PyDict [(py "lab_title", PyStr (py "Fence with ``` here"))]) /\
  strip_fences (wrapped fenced_title_payload)
  = dq "{'lab_title': 'Fence with  here'}" /\
  strip_fences (wrapped fenced_title_payload) <> fenced_title_payload.
Proof.
  split; [vm_compute; reflexivity |].
  split; [vm_compute; reflexivity |].
  vm_compute. discriminate.
Qed.



(** ** The download round trip *)

Section EscapeFacts.

Lemma lor_shiftl_add (x b k : N) :
  b < 2 ^ k -> N.lor (N.shiftl x k) b = x * 2 ^ k + b.
Proof.
  intros Hb. rewrite N.shiftl_mul_pow2.
  rewrite <- N.lxor_lor, <- N.add_nocarry_lxor; try reflexivity.
  all: apply N.bits_inj; intros i; rewrite N.land_spec, N.bits_0;
    rewrite <- N.shiftl_mul_pow2;
    destruct (N.lt_ge_cases i k) as [Hi | Hi].
  all: try (rewrite N.shiftl_spec_low by assumption; reflexivity).
  all: replace (N.testbit b i) with false; [apply andb_false_r |].
  all: symmetry; destruct (N.eq_dec b 0) as [-> | Hnz]; [apply N.bits_0 |].
  all: apply N.bits_above_log2; apply N.log2_lt_pow2; [lia |].
  all: apply N.lt_le_trans with (2 ^ k); [assumption |].
  all: apply N.pow_le_mono_r; lia.
Qed.

Lemma land_15 (x : N) : N.land x 15 = x mod 16.
Proof. change 15 with (N.ones 4). rewrite N.land_ones. reflexivity. Qed.

Lemma land_1023 (x : N) : N.land x 1023 = x mod 1024.
Proof. change 1023 with (N.ones 10). rewrite N.land_ones. reflexivity. Qed.

Lemma hex_value_digit (d : N) :
  d < 16 -> Lex.hex_value (Enc.hex_digit d) = Some d.
Proof.
  intros Hd. unfold Lex.hex_value, Enc.hex_digit.
  destruct (N.ltb_spec d 10) as [Hlt | Hge].
  - replace ((48 <=? 48 + d) && (48 + d <=? 57)) with true.
    + f_equal. lia.
    + symmetry. apply andb_true_iff. split; apply N.leb_le; lia.
  - replace ((48 <=? 87 + d) && (87 + d <=? 57)) with false.
    + replace ((97 <=? 87 + d) && (87 + d <=? 102)) with true.
      * f_equal. lia.
      * symmetry. apply andb_true_iff. split; apply N.leb_le; lia.
    + symmetry. apply andb_false_iff. right. apply N.leb_gt. lia.
Qed.

(** The four digits that [u_escape] writes are read back as the number. *)
Lemma hex4_value_digits (n : N) :
  n < 65536 ->
  Lex.hex4_value
    (Enc.hex_digit (N.land (N.shiftr n 12) 15))
    (Enc.hex_digit (N.land (N.shiftr n 8) 15))
    (Enc.hex_digit (N.land (N.shiftr n 4) 15))
    (Enc.hex_digit (N.land n 15)) = Some n.
Proof.
  intros Hn. unfold Lex.hex4_value.
  rewrite !land_15, !N.shiftr_div_pow2.
  change (2 ^ 12) with 4096. change (2 ^ 8) with 256. change (2 ^ 4) with 16.
  rewrite !hex_value_digit by (apply N.mod_lt; discriminate).
  f_equal.
  rewrite (lor_shiftl_add _ ((n / 256) mod 16) 4)
    by (apply N.mod_lt; discriminate).
  rewrite (lor_shiftl_add _ ((n / 16) mod 16) 4)
    by (apply N.mod_lt; discriminate).
  rewrite (lor_shiftl_add _ (n mod 16) 4) by (apply N.mod_lt; discriminate).
  change (2 ^ 4) with 16.
  div_lia.
Qed.

(** The surrogate pair written for a character beyond the basic plane. *)
Lemma high_surrogate_of (c : N) :
  65536 <= c < 1114112 ->
  N.lor 55296 (N.land (N.shiftr (c - 65536) 10) 1023) = 55296 + (c - 65536) / 1024.
Proof.
  intros Hc. rewrite land_1023, N.shiftr_div_pow2. change (2 ^ 10) with 1024.
  change 55296 with (N.shiftl 54 10) at 1.
  rewrite lor_shiftl_add by (apply N.mod_lt; discriminate).
  change (2 ^ 10) with 1024.
  div_lia.
Qed.

Lemma low_surrogate_of (c : N) :
  N.lor 56320 (N.land (c - 65536) 1023) = 56320 + (c - 65536) mod 1024.
Proof.
  rewrite land_1023. change 56320 with (N.shiftl 55 10) at 1.
  rewrite lor_shiftl_add by (apply N.mod_lt; discriminate). reflexivity.
Qed.

Lemma join_surrogates_of (c : N) :
  65536 <= c < 1114112 ->
  Lex.join_surrogates (55296 + (c - 65536) / 1024)
    (56320 + (c - 65536) mod 1024) = c.
Proof.
  intros Hc. unfold Lex.join_surrogates. rewrite !land_1023.
  rewrite lor_shiftl_add by (apply N.mod_lt; discriminate).
  change (2 ^ 10) with 1024.
  div_lia.
Qed.

End EscapeFacts.

Section StringFacts.

Lemma scanstring_cons (c : N) (r : text) :
  32 <= c -> c <> 34 -> c <> 92 ->
  Lex.scanstring (c :: r) = Lex.push c (Lex.scanstring r).
Proof.
  intros Hlow Hq Hb. cbn [Lex.scanstring]. unfold Chr.DQUOTE, Chr.BACKSLASH.
  rewrite (proj2 (N.eqb_neq c 34) Hq), (proj2 (N.eqb_neq c 92) Hb).
  rewrite (proj2 (N.leb_gt c 31)) by lia. reflexivity.
Qed.

Lemma scanstring_u_plain (a b c d u : N) (r : text) :
  Lex.hex4_value a b c d = Some u ->
  Lex.is_high_surrogate u = false ->
  Lex.scanstring (92 :: 117 :: a :: b :: c :: d :: r)
  = Lex.push u (Lex.scanstring r).
Proof.
  intros Hu Hhigh.
  change (Lex.scanstring (92 :: 117 :: a :: b :: c :: d :: r))
    with (match Lex.hex4_value a b c d with
          | None => None
          | Some u =>
            if Lex.is_high_surrogate u then
              match r with
              | bs :: e2 :: a2 :: b2 :: c2 :: d2 :: r3 =>
                if (bs =? Chr.BACKSLASH) && (e2 =? 117) then
                  match Lex.hex4_value a2 b2 c2 d2 with
                  | None => None
                  | Some u2 =>
                    if Lex.is_low_surrogate u2
                    then Lex.push (Lex.join_surrogates u u2) (Lex.scanstring r3)
                    else Lex.push u (Lex.scanstring r)
                  end
                else Lex.push u (Lex.scanstring r)
              | _ => Lex.push u (Lex.scanstring r)
              end
            else Lex.push u (Lex.scanstring r)
          end).
  rewrite Hu, Hhigh. reflexivity.
Qed.

Lemma scanstring_u_pair (a b c d a2 b2 c2 d2 u u2 : N) (r : text) :
  Lex.hex4_value a b c d = Some u ->
  Lex.is_high_surrogate u = true ->
  Lex.hex4_value a2 b2 c2 d2 = Some u2 ->
  Lex.is_low_surrogate u2 = true ->
  Lex.scanstring
    (92 :: 117 :: a :: b :: c :: d :: 92 :: 117 :: a2 :: b2 :: c2 :: d2 :: r)
  = Lex.push (Lex.join_surrogates u u2) (Lex.scanstring r).
Proof.
  intros Hu Hhigh Hu2 Hlow.
  change (Lex.scanstring
            (92 :: 117 :: a :: b :: c :: d
             :: 92 :: 117 :: a2 :: b2 :: c2 :: d2 :: r))
    with (match Lex.hex4_value a b c d with
          | None => None
          | Some u =>
            if Lex.is_high_surrogate u then
              match Lex.hex4_value a2 b2 c2 d2 with
              | None => None
              | Some u2 =>
                if Lex.is_low_surrogate u2
                then Lex.push (Lex.join_surrogates u u2) (Lex.scanstring r)
                else Lex.push u
                       (Lex.scanstring (92 :: 117 :: a2 :: b2 :: c2 :: d2 :: r))
              end
            else Lex.push u
                   (Lex.scanstring (92 :: 117 :: a2 :: b2 :: c2 :: d2 :: r))
          end).
  rewrite Hu, Hhigh, Hu2, Hlow. reflexivity.
Qed.

(** What the encoder writes for a scalar value is read back as that
    value. *)
Lemma scanstring_escape_char (c : N) (r : text) :
  is_scalar c = true ->
  Lex.scanstring (Enc.escape_char c ++ r) = Lex.push c (Lex.scanstring r).
Proof.
  intros Hc. unfold is_scalar in Hc.
  rewrite orb_true_iff, andb_true_iff, !N.ltb_lt in Hc.
  unfold Enc.escape_char.
  destruct (N.eqb_spec c 92) as [-> | H92]; [reflexivity |].
  destruct (N.eqb_spec c 34) as [-> | H34]; [reflexivity |].
  destruct (N.eqb_spec c 8) as [-> | H8]; [reflexivity |].
  destruct (N.eqb_spec c 12) as [-> | H12]; [reflexivity |].
  destruct (N.eqb_spec c 10) as [-> | H10]; [reflexivity |].
  destruct (N.eqb_spec c 13) as [-> | H13]; [reflexivity |].
  destruct (N.eqb_spec c 9) as [-> | H9]; [reflexivity |].
  destruct ((32 <=? c) && (c <=? 126)) eqn:Hplain.
  - apply andb_true_iff in Hplain as [Hlow _]. apply N.leb_le in Hlow.
    cbn [app]. apply scanstring_cons; assumption.
  - destruct (N.ltb_spec c 65536) as [Hbmp | Hbeyond].
    + unfold Enc.u_escape, Chr.BACKSLASH. cbn [app].
      apply scanstring_u_plain; [apply hex4_value_digits, Hbmp |].
      unfold Lex.is_high_surrogate. apply andb_false_iff.
      destruct Hc as [Hc | [Hc _]];
        [left; apply N.leb_gt; lia | right; apply N.leb_gt; lia].
    + assert (Hrange : 65536 <= c < 1114112) by lia.
      cbn zeta. rewrite (high_surrogate_of c Hrange), low_surrogate_of.
      unfold Enc.u_escape, Chr.BACKSLASH. cbn [app].
      rewrite (scanstring_u_pair _ _ _ _ _ _ _ _
                 (55296 + (c - 65536) / 1024) (56320 + (c - 65536) mod 1024)).
      * rewrite (join_surrogates_of c Hrange). reflexivity.
      * apply hex4_value_digits. div_lia.
      * unfold Lex.is_high_surrogate. apply andb_true_iff.
        split; apply N.leb_le; div_lia.
      * apply hex4_value_digits. div_lia.
      * unfold Lex.is_low_surrogate. apply andb_true_iff.
        split; apply N.leb_le; div_lia.
Qed.

Lemma scanstring_escaped (s r : text) :
  is_text s = true ->
  Lex.scanstring (flat_map Enc.escape_char s ++ Chr.DQUOTE :: r) = Some (s, r).
Proof.
  induction s as [| c s IH]; intros Hs; [reflexivity |].
  cbn [is_text forallb] in Hs. apply andb_true_iff in Hs as [Hc Hs].
  cbn [flat_map]. rewrite <- app_assoc, (scanstring_escape_char c _ Hc).
  rewrite (IH Hs). reflexivity.
Qed.

End StringFacts.

Section RoundTripFacts.
Context `{PyNumbers}.
Variable indent : nat.

Lemma pyval_nested_ind (P : pyval -> Prop) :
  P PyNone ->
  (forall b, P (PyBool b)) ->
  (forall n, P (PyNum n)) ->
  (forall s, P (PyStr s)) ->
  (forall l, Forall P l -> P (PyList l)) ->
  (forall d, Forall (fun kv => P kv.2) d -> P (PyDict d)) ->
  forall v, P v.
Proof.
  intros Hnone Hbool Hnum Hstr Hlist Hdict. fix IH 1.
  intros [| b | n | s | l | d].
  - exact Hnone.
  - apply Hbool.
  - apply Hnum.
  - apply Hstr.
  - apply Hlist. induction l as [| x l IHl]; constructor.
    + apply IH.
    + exact IHl.
  - apply Hdict. induction d as [| [k x] d IHd]; constructor.
    + apply IH.
    + exact IHd.
Qed.

Lemma skip_ws_indent (level : nat) (s : text) :
  Lex.skip_ws (Enc.newline_indent indent level ++ s) = Lex.skip_ws s.
Proof.
  unfold Enc.newline_indent. cbn [app Lex.skip_ws].
  change (Lex.is_ws Chr.NL) with true. cbn iota.
  induction (indent * level)%nat as [| n IH]; [reflexivity |].
  cbn [replicate app Lex.skip_ws]. change (Lex.is_ws 32) with true.
  exact IH.
Qed.

Lemma skip_ws_value (c : N) (s : text) :
  Lex.is_ws c = false -> Lex.skip_ws (c :: s) = c :: s.
Proof. intros Hc. cbn [Lex.skip_ws]. rewrite Hc. reflexivity. Qed.

(** The first character of an encoded value is neither whitespace nor the
    closing bracket. *)
Lemma encode_head (level : nat) (v : pyval) :
  well_formed v = true ->
  exists c t, encode indent level v = c :: t /\ Lex.is_ws c = false /\ c <> 93.
Proof.
  destruct v as [| [|] | n | s | [| x l] | [| kv d]]; intros Hv;
    try discriminate Hv;
    eexists; eexists; (split; [reflexivity | split; [reflexivity | discriminate]]).
Qed.

Lemma join_head (sep x : text) (l : list text) :
  exists t, Enc.join sep (x :: l) = x ++ t.
Proof.
  destruct l as [| y l].
  - exists []. cbn. rewrite app_nil_r. reflexivity.
  - eexists. reflexivity.
Qed.

Lemma dict_set_fresh (k : text) (v : pyval) (d : list (text * pyval)) :
  k ∉ d.*1 -> dict_set k v d = d ++ [(k, v)].
Proof.
  induction d as [| [k' v'] d IH]; intros Hk; [reflexivity |].
  cbn [dict_set]. rewrite fmap_cons in Hk. apply not_elem_of_cons in Hk as [Hne Hk].
  cbn [fst] in Hne. rewrite decide_False by exact Hne.
  rewrite (IH Hk). reflexivity.
Qed.

Lemma parse_elements_step (fuel : nat) (acc : list pyval) (s : text) :
  parse_elements (S fuel) acc s =
    match scan_once fuel s with
    | None => None
    | Some (v, r) =>
      match Lex.skip_ws r with
      | [] => None
      | c :: r' =>
        if c =? 93 then Some (PyList (acc ++ [v]), r')
        else if c =? 44 then parse_elements fuel (acc ++ [v]) (Lex.skip_ws r')
        else None
      end
    end.
Proof. reflexivity. Qed.

Lemma parse_members_step (fuel : nat) (d : list (text * pyval)) (r : text) :
  parse_members (S fuel) d (34 :: r) =
    match Lex.scanstring r with
    | None => None
    | Some (key, r1) =>
      match Lex.skip_ws r1 with
      | [] => None
      | colon :: r2 =>
        if colon =? 58 then
          match scan_once fuel (Lex.skip_ws r2) with
          | None => None
          | Some (v, r3) =>
            match Lex.skip_ws r3 with
            | [] => None
            | c4 :: r4 =>
              if c4 =? 125 then Some (PyDict (dict_set key v d), r4)
              else if c4 =? 44
              then parse_members fuel (dict_set key v d) (Lex.skip_ws r4)
              else None
            end
          end
        else None
      end
    end.
Proof. reflexivity. Qed.

(** The loop of [_parse_array] on the elements written by the encoder. *)
Lemma parse_elements_encoded (level : nat) (l : list pyval) :
  Forall (fun x => forall lv fuel rest,
            well_formed x = true ->
            (length (encode indent lv x) <= fuel)%nat ->
            scan_once fuel (encode indent lv x ++ rest) = Some (x, rest)) l ->
  l <> [] ->
  forall acc fuel rest,
    forallb well_formed l = true ->
    (length (Enc.join (py "," ++ Enc.newline_indent indent (S level))
               (encode indent (S level) <$> l)) < fuel)%nat ->
    parse_elements fuel acc
      (Enc.join (py "," ++ Enc.newline_indent indent (S level))
         (encode indent (S level) <$> l)
       ++ Enc.newline_indent indent level ++ 93 :: rest)
    = Some (PyList (acc ++ l), rest).
Proof.
  induction 1 as [| x l Hx Hl IH]; [contradiction |].
  intros _ acc fuel rest Hwf Hfuel.
  destruct fuel as [| f]; [lia |].
  cbn [forallb] in Hwf. apply andb_true_iff in Hwf as [Hwx Hwl].
  destruct (encode_head (S level) x Hwx) as (c & t & Hex & _ & _).
  assert (Hlen : (1 <= length (encode indent (S level) x))%nat)
    by (rewrite Hex; cbn; lia).
  rewrite parse_elements_step.
  destruct l as [| y l'].
  - cbn [fmap list_fmap Enc.join] in Hfuel |- *.
    rewrite Hx by (assumption || lia).
    rewrite skip_ws_indent, skip_ws_value by reflexivity.
    reflexivity.
  - cbn [fmap list_fmap] in Hfuel |- *.
    change (Enc.join ?sep (?a :: ?b :: ?r))
      with (a ++ sep ++ Enc.join sep (b :: r)) in Hfuel |- *.
    rewrite !length_app in Hfuel. rewrite <- !app_assoc.
    rewrite Hx by (assumption || lia).
    change (py ",") with [44]. cbn [app].
    rewrite skip_ws_value by reflexivity.
    change (44 =? 93) with false. change (44 =? 44) with true. cbn iota.
    rewrite skip_ws_indent.
    cbn [forallb] in Hwl. pose proof Hwl as Hwl'.
    apply andb_true_iff in Hwl' as [Hwy _].
    destruct (encode_head (S level) y Hwy) as (cy & ty & Hey & Hws & _).
    destruct (join_head (py "," ++ Enc.newline_indent indent (S level))
                (encode indent (S level) y) (encode indent (S level) <$> l'))
      as [tj Htj].
    assert (Hskip : forall r,
      Lex.skip_ws (Enc.join (py "," ++ Enc.newline_indent indent (S level))
                     (encode indent (S level) y :: (encode indent (S level) <$> l')) ++ r)
      = Enc.join (py "," ++ Enc.newline_indent indent (S level))
          (encode indent (S level) y :: (encode indent (S level) <$> l')) ++ r).
    { intros r. rewrite Htj, Hey. cbn [app]. apply skip_ws_value, Hws. }
    rewrite Hskip.
    specialize (IH ltac:(discriminate) (acc ++ [x]) f rest Hwl).
    cbn [fmap list_fmap] in IH. rewrite IH.
    + rewrite <- app_assoc. reflexivity.
    + lia.
Qed.

Lemma pair_shape (k e t : text) :
  (Enc.encode_basestring_ascii k ++ py ": " ++ e) ++ t
  = 34 :: flat_map Enc.escape_char k ++ 34 :: 58 :: 32 :: e ++ t.
Proof.
  unfold Enc.encode_basestring_ascii, Chr.DQUOTE. change (py ": ") with [58; 32].
  cbn [app]. rewrite <- !app_assoc. reflexivity.
Qed.

Lemma skip_ws_encoded (level : nat) (v : pyval) (t : text) :
  well_formed v = true ->
  Lex.skip_ws (encode indent level v ++ t) = encode indent level v ++ t.
Proof.
  intros Hv. destruct (encode_head level v Hv) as (c & r & Hc & Hws & _).
  rewrite Hc. cbn [app]. apply skip_ws_value, Hws.
Qed.

(** The loop of [_parse_object] on the members written by the encoder. *)
Lemma parse_members_encoded (level : nat) (d : list (text * pyval)) :
  Forall (fun kv => forall lv fuel rest,
            well_formed kv.2 = true ->
            (length (encode indent lv kv.2) <= fuel)%nat ->
            scan_once fuel (encode indent lv kv.2 ++ rest) = Some (kv.2, rest)) d ->
  d <> [] ->
  forall acc fuel rest,
    forallb (fun kv => is_text kv.1 && well_formed kv.2) d = true ->
    NoDup ((acc ++ d).*1) ->
    (length (Enc.join (py "," ++ Enc.newline_indent indent (S level))
               ((fun kv => Enc.encode_basestring_ascii kv.1 ++ py ": "
                           ++ encode indent (S level) kv.2) <$> d)) < fuel)%nat ->
    parse_members fuel acc
      (Enc.join (py "," ++ Enc.newline_indent indent (S level))
         ((fun kv => Enc.encode_basestring_ascii kv.1 ++ py ": "
                     ++ encode indent (S level) kv.2) <$> d)
       ++ Enc.newline_indent indent level ++ 125 :: rest)
    = Some (PyDict (acc ++ d), rest).
Proof.
  induction 1 as [| [k v] d Hv Hd IH]; [contradiction |].
  intros _ acc fuel rest Hwf Hnodup Hfuel.
  destruct fuel as [| f]; [lia |].
  cbn [forallb fst snd] in Hwf. apply andb_true_iff in Hwf as [Hkv Hwd].
  apply andb_true_iff in Hkv as [Hk Hwv]. cbn [snd] in Hv.
  assert (Hfresh : k ∉ acc.*1).
  { rewrite fmap_app, fmap_cons in Hnodup. apply NoDup_app in Hnodup.
    destruct Hnodup as (_ & Hdisj & _). intros Hin.
    apply (Hdisj k Hin). left. }
  destruct d as [| [k' v'] d'].
  - cbn [fmap list_fmap Enc.join fst snd] in Hfuel |- *.
    rewrite !length_app in Hfuel.
    rewrite pair_shape, parse_members_step, (scanstring_escaped k _ Hk).
    rewrite skip_ws_value by reflexivity.
    change (58 =? 58) with true. cbn iota.
    cbn [Lex.skip_ws]. change (Lex.is_ws 32) with true. cbn iota.
    rewrite (skip_ws_encoded (S level) v _ Hwv).
    rewrite Hv by (assumption || lia).
    rewrite skip_ws_indent, skip_ws_value by reflexivity.
    change (125 =? 125) with true. cbn iota.
    rewrite (dict_set_fresh k v acc Hfresh). reflexivity.
  - cbn [fmap list_fmap fst snd] in Hfuel |- *.
    change (Enc.join ?sep (?a :: ?b :: ?r))
      with (a ++ sep ++ Enc.join sep (b :: r)) in Hfuel |- *.
    rewrite !length_app in Hfuel. rewrite <- (app_assoc _ _ (_ ++ 125 :: rest)).
    rewrite pair_shape, parse_members_step, (scanstring_escaped k _ Hk).
    rewrite skip_ws_value by reflexivity.
    change (58 =? 58) with true. cbn iota.
    cbn [Lex.skip_ws]. change (Lex.is_ws 32) with true. cbn iota.
    rewrite (skip_ws_encoded (S level) v _ Hwv).
    rewrite Hv by (assumption || lia).
    rewrite <- !app_assoc. change (py ",") with [44]. cbn [app].
    rewrite skip_ws_value by reflexivity.
    change (44 =? 125) with false. change (44 =? 44) with true. cbn iota.
    rewrite skip_ws_indent, (dict_set_fresh k v acc Hfresh).
    destruct (join_head ([44] ++ Enc.newline_indent indent (S level))
                (Enc.encode_basestring_ascii k' ++ py ": "
                 ++ encode indent (S level) v')
                ((fun kv => Enc.encode_basestring_ascii kv.1 ++ py ": "
                            ++ encode indent (S level) kv.2) <$> d'))
      as [tj Htj].
    assert (Hskip : forall r,
      Lex.skip_ws
        (Enc.join ([44] ++ Enc.newline_indent indent (S level))
           ((Enc.encode_basestring_ascii k' ++ py ": "
             ++ encode indent (S level) v')
            :: ((fun kv => Enc.encode_basestring_ascii kv.1 ++ py ": "
                           ++ encode indent (S level) kv.2) <$> d')) ++ r)
      = Enc.join ([44] ++ Enc.newline_indent indent (S level))
          ((Enc.encode_basestring_ascii k' ++ py ": "
            ++ encode indent (S level) v')
           :: ((fun kv => Enc.encode_basestring_ascii kv.1 ++ py ": "
                          ++ encode indent (S level) kv.2) <$> d')) ++ r).
    { intros r. rewrite Htj. unfold Enc.encode_basestring_ascii.
      cbn [app]. apply skip_ws_value. reflexivity. }
    change (44 :: Enc.newline_indent indent (S level))
      with ([44] ++ Enc.newline_indent indent (S level)).
    rewrite Hskip.
    specialize (IH ltac:(discriminate) (acc ++ [(k, v)]) f rest Hwd).
    cbn [fmap list_fmap fst snd] in IH.
    change (py ",") with [44] in IH, Hfuel. rewrite IH.
    + rewrite <- app_assoc. reflexivity.
    + rewrite <- app_assoc. exact Hnodup.
    + clear -Hfuel. change (py ": ") with [58; 32] in Hfuel |- *.
      rewrite ?length_app in Hfuel. cbn [length] in Hfuel. lia.
Qed.

Lemma scan_once_string (fuel : nat) (r : text) :
  scan_once (S fuel) (34 :: r) =
    match Lex.scanstring r with
    | Some (str, r') => Some (PyStr str, r')
    | None => None
    end.
Proof. reflexivity. Qed.

Lemma scan_once_array (fuel : nat) (r : text) :
  scan_once (S fuel) (91 :: r) =
    match Lex.skip_ws r with
    | c' :: r' =>
      if c' =? 93 then Some (PyList [], r')
      else parse_elements fuel [] (c' :: r')
    | [] => None
    end.
Proof. reflexivity. Qed.

Lemma scan_once_object (fuel : nat) (r : text) :
  scan_once (S fuel) (123 :: r) =
    match Lex.skip_ws r with
    | c' :: r' =>
      if c' =? 125 then Some (PyDict [], r')
      else parse_members fuel [] (c' :: r')
    | [] => None
    end.
Proof. reflexivity. Qed.

(** The scanner reads back what the encoder writes for a well-formed
    value, at any nesting level, whatever follows it, given fuel for the
    length of the text. *)
Lemma scan_once_encoded (v : pyval) :
  forall level fuel rest,
    well_formed v = true ->
    (length (encode indent level v) <= fuel)%nat ->
    scan_once fuel (encode indent level v ++ rest) = Some (v, rest).
Proof.
  induction v as [| b | n | s | l IHl | d IHd] using pyval_nested_ind;
    intros level fuel rest Hwf Hfuel.
  - destruct fuel as [| f]; [cbn in Hfuel; lia | reflexivity].
  - destruct fuel as [| f]; [destruct b; cbn in Hfuel; lia |].
    destruct b; reflexivity.
  - discriminate Hwf.
  - destruct fuel as [| f]; [cbn in Hfuel; lia |].
    cbn [encode well_formed] in Hwf |- *.
    unfold Enc.encode_basestring_ascii, Chr.DQUOTE. cbn [app].
    rewrite <- app_assoc. cbn [app].
    rewrite scan_once_string, (scanstring_escaped s _ Hwf). reflexivity.
  - destruct l as [| x l]; [destruct fuel; [cbn in Hfuel; lia | reflexivity] |].
    destruct fuel as [| f]; [cbn in Hfuel; lia |].
    change (encode indent level (PyList (x :: l)))
      with ([91] ++ Enc.newline_indent indent (S level)
            ++ Enc.join (py "," ++ Enc.newline_indent indent (S level))
                 (encode indent (S level) <$> x :: l)
            ++ Enc.newline_indent indent level ++ [93]) in Hfuel |- *.
    cbn [well_formed] in Hwf.
    rewrite !length_app in Hfuel. cbn [length] in Hfuel.
    rewrite <- !app_assoc. cbn [app].
    rewrite scan_once_array, skip_ws_indent.
    pose proof Hwf as Hwx. cbn [forallb] in Hwx.
    apply andb_true_iff in Hwx as [Hwx _].
    destruct (encode_head (S level) x Hwx) as (c & t & Hex & Hws & H93).
    destruct (join_head (py "," ++ Enc.newline_indent indent (S level))
                (encode indent (S level) x) (encode indent (S level) <$> l))
      as [tj Htj].
    pose proof (parse_elements_encoded level (x :: l) IHl ltac:(discriminate)
                  [] f rest Hwf) as Hloop.
    cbn [fmap list_fmap] in Hloop |- *. rewrite Htj, Hex in Hloop |- *.
    cbn [app] in Hloop |- *. rewrite skip_ws_value by exact Hws.
    rewrite (proj2 (N.eqb_neq c 93) H93). apply Hloop.
    cbn [fmap list_fmap] in Hfuel. rewrite Htj, Hex in Hfuel.
    clear -Hfuel. unfold Enc.newline_indent in Hfuel.
    cbn [length app] in Hfuel |- *. rewrite ?length_app in Hfuel |- *.
    cbn [length] in Hfuel |- *. lia.
  - destruct d as [| [k x] d]; [destruct fuel; [cbn in Hfuel; lia | reflexivity] |].
    destruct fuel as [| f]; [cbn in Hfuel; lia |].
    change (encode indent level (PyDict ((k, x) :: d)))
      with ([123] ++ Enc.newline_indent indent (S level)
            ++ Enc.join (py "," ++ Enc.newline_indent indent (S level))
                 ((fun kv => Enc.encode_basestring_ascii kv.1 ++ py ": "
                             ++ encode indent (S level) kv.2) <$> (k, x) :: d)
            ++ Enc.newline_indent indent level ++ [125]) in Hfuel |- *.
    cbn [well_formed] in Hwf. apply andb_true_iff in Hwf as [Hwf Hnodup].
    apply bool_decide_eq_true in Hnodup.
    rewrite !length_app in Hfuel. cbn [length] in Hfuel.
    rewrite <- !app_assoc. cbn [app].
    rewrite scan_once_object, skip_ws_indent.
    destruct (join_head (py "," ++ Enc.newline_indent indent (S level))
                (Enc.encode_basestring_ascii k ++ py ": "
                 ++ encode indent (S level) x)
                ((fun kv => Enc.encode_basestring_ascii kv.1 ++ py ": "
                            ++ encode indent (S level) kv.2) <$> d))
      as [tj Htj].
    pose proof (parse_members_encoded level ((k, x) :: d) IHd
                  ltac:(discriminate) [] f rest Hwf Hnodup) as Hloop.
    cbn [fmap list_fmap fst snd] in Hloop |- *. rewrite Htj in Hloop |- *.
    unfold Enc.encode_basestring_ascii at 1 in Hloop.
    unfold Enc.encode_basestring_ascii at 1.
    unfold Chr.DQUOTE in Hloop |- *.
    cbn [app] in Hloop |- *. rewrite skip_ws_value by reflexivity.
    change (34 =? 125) with false. cbn iota. apply Hloop.
    cbn [fmap list_fmap fst snd] in Hfuel. rewrite Htj in Hfuel.
    clear -Hfuel.
    unfold Enc.newline_indent, Enc.encode_basestring_ascii in Hfuel |- *.
    cbn [length app] in Hfuel |- *. rewrite ?length_app in Hfuel |- *.
    cbn [length] in Hfuel |- *. lia.
Qed.

(** [json.loads] reads back what [json.dumps] writes for a well-formed
    value. *)
Lemma json_round_trip (v : pyval) :
  well_formed v = true ->
  json_loads (json_dumps indent v) = Some v.
Proof.
  intros Hwf. unfold json_loads, json_dumps.
  rewrite <- (app_nil_r (encode indent 0 v)) at 2.
  rewrite (skip_ws_encoded 0 v [] Hwf).
  rewrite scan_once_encoded by (assumption || lia).
  reflexivity.
Qed.

End RoundTripFacts.

(** C8: a lab with its seven fields (strings of Unicode scalar values, lists
    and a mapping of such strings), written by the download button as JSON
    indented by four and parsed back, is the lab itself: the same keys with
    the same values, so the same seven fields. *)
Theorem C8_download_round_trip `{PyNumbers} (lab : pyval) :
  is_lab lab = true ->
  json_loads (json_dumps 4 lab) = Some lab.
Proof.
  intros Hlab. unfold is_lab in Hlab. apply andb_true_iff in Hlab as [Hwf _].
  apply json_round_trip, Hwf.
Qed.

Lemma C8_witness :
  @json_loads literal_numbers (json_dumps 4 seven_field_lab)
  = Some seven_field_lab.
Proof.
  apply (@C8_download_round_trip literal_numbers seven_field_lab).
  vm_compute. reflexivity.
Defined.

(** ** The fuel of the decoder *)

Section LexFacts.

Lemma skip_ws_length (s : text) : (length (Lex.skip_ws s) <= length s)%nat.
Proof.
  induction s as [| c s IH]; [reflexivity |].
  cbn [Lex.skip_ws]. destruct (Lex.is_ws c); cbn [length]; lia.
Qed.

Lemma span_digits_length (s ds r : text) :
  Lex.span_digits s = (ds, r) -> length s = (length ds + length r)%nat.
Proof.
  revert ds r. induction s as [| c s IH]; intros ds r Hs; cbn in Hs.
  - injection Hs as <- <-. reflexivity.
  - destruct (Lex.is_digit c).
    + destruct (Lex.span_digits s) as [ds' r'] eqn:Hspan.
      injection Hs as <- <-. cbn [length]. rewrite (IH _ _ eq_refl). reflexivity.
    + injection Hs as <- <-. reflexivity.
Qed.

Lemma scanstring_shrinks (n : nat) :
  forall s k r,
    (length s <= n)%nat -> Lex.scanstring s = Some (k, r) ->
    (length r < length s)%nat.
Proof.
  induction n as [| n IH]; intros s k r Hn Hs.
  - destruct s; [discriminate Hs | cbn in Hn; lia].
  - destruct s as [| c s]; [discriminate Hs |].
    cbn [Lex.scanstring] in Hs. cbn [length] in Hn |- *.
    assert (Hpush : forall u t,
      (length t <= n)%nat -> Lex.push u (Lex.scanstring t) = Some (k, r) ->
      (length r < length t)%nat).
    { intros u t Ht Hp. unfold Lex.push in Hp.
      destruct (Lex.scanstring t) as [[k' r'] |] eqn:Ht'; [| discriminate Hp].
      injection Hp as <- <-. apply (IH t k' r' Ht Ht'). }
    repeat case_match; simplify_eq; cbn [length] in *;
      try lia;
      match goal with
      | Hp : Lex.push _ (Lex.scanstring ?t) = Some _ |- _ =>
        apply Hpush in Hp; cbn [length] in *; lia
      end.
Qed.

Lemma match_number_shrinks (s lit r : text) (is_float : bool) :
  Lex.match_number s = Some (lit, is_float, r) -> (length r < length s)%nat.
Proof.
  unfold Lex.match_number, Lex.match_int, Lex.match_frac, Lex.match_exp.
  intros Hs.
  repeat (case_match; simplify_eq);
    repeat match goal with
           | Hd : Lex.span_digits _ = _ |- _ =>
             apply span_digits_length in Hd
           end;
    cbn [length] in *; lia.
Qed.

End LexFacts.

(** The length of a text without its leading whitespace, for each such text
    in the hypotheses. *)
Ltac skip_ws_bounds :=
  repeat match goal with
         | Hc : context [length (Lex.skip_ws ?x)] |- _ =>
           lazymatch goal with
           | _ : (length (Lex.skip_ws x) <= length x)%nat |- _ => fail
           | _ => pose proof (skip_ws_length x)
           end
         end.

Section FuelFacts.
Context `{PyNumbers}.

(** Each of the three functions of the decoder takes at least one character
    of its text. *)
Lemma decoder_shrinks (fuel : nat) :
  (forall s v r, scan_once fuel s = Some (v, r) -> (length r < length s)%nat) /\
  (forall d s v r,
     parse_members fuel d s = Some (v, r) -> (length r < length s)%nat) /\
  (forall acc s v r,
     parse_elements fuel acc s = Some (v, r) -> (length r < length s)%nat).
Proof.
  induction fuel as [| f (IHscan & IHmem & IHel)];
    [repeat split; intros; discriminate |].
  assert (Hws : forall r x, Lex.skip_ws r = x -> (length x <= length r)%nat).
  { intros r x <-. apply skip_ws_length. }
  assert (Hstr : forall r k r', Lex.scanstring r = Some (k, r') ->
                   (length r' < length r)%nat).
  { intros r k r'. apply (scanstring_shrinks (length r)). reflexivity. }
  repeat split.
  - intros s v r Hs. destruct s as [| c s]; [discriminate Hs |].
    cbn [scan_once] in Hs. unfold constant, scan_number, Lex.after in Hs.
    unfold number in Hs.
    repeat (case_match; simplify_eq);
      repeat match goal with
             | E : Lex.skip_ws _ = _ |- _ => apply Hws in E
             | E : Lex.scanstring _ = Some _ |- _ => apply Hstr in E
             | E : Lex.match_number _ = Some _ |- _ =>
               apply match_number_shrinks in E
             | E : parse_members f _ _ = Some _ |- _ => apply IHmem in E
             | E : parse_elements f _ _ = Some _ |- _ => apply IHel in E
             end;
      rewrite ?length_drop; cbn [length] in *; try lia.
    all: cbn; lia.
  - intros d s v r Hs. destruct s as [| c s]; [discriminate Hs |].
    cbn [parse_members] in Hs.
    repeat (case_match; simplify_eq);
      repeat match goal with
             | E : Lex.skip_ws _ = _ |- _ => apply Hws in E
             | E : Lex.scanstring _ = Some _ |- _ => apply Hstr in E
             | E : scan_once f _ = Some _ |- _ => apply IHscan in E
             | E : parse_members f _ _ = Some _ |- _ => apply IHmem in E
             end;
      skip_ws_bounds; cbn [length] in *; lia.
  - intros acc s v r Hs. cbn [parse_elements] in Hs.
    repeat (case_match; simplify_eq);
      repeat match goal with
             | E : Lex.skip_ws _ = _ |- _ => apply Hws in E
             | E : scan_once f _ = Some _ |- _ => apply IHscan in E
             | E : parse_elements f _ _ = Some _ |- _ => apply IHel in E
             end;
      skip_ws_bounds; cbn [length] in *; lia.
Qed.

(** Fuel beyond twice the length of the text does not change what the
    decoder returns. *)
Lemma decoder_fuel (fuel : nat) :
  (forall s k, (2 * length s + 1 <= fuel)%nat ->
     scan_once (fuel + k) s = scan_once fuel s) /\
  (forall d s k, (2 * length s + 2 <= fuel)%nat ->
     parse_members (fuel + k) d s = parse_members fuel d s) /\
  (forall acc s k, (2 * length s + 2 <= fuel)%nat ->
     parse_elements (fuel + k) acc s = parse_elements fuel acc s).
Proof.
  induction fuel as [| f (IHscan & IHmem & IHel)];
    [repeat split; intros; lia |].
  destruct (decoder_shrinks f) as (Hscan & Hmem & Hel).
  assert (Hstr : forall r k r', Lex.scanstring r = Some (k, r') ->
                   (length r' < length r)%nat).
  { intros r k r'. apply (scanstring_shrinks (length r)). reflexivity. }
  repeat split.
  - intros s k Hb. change (S f + k)%nat with (S (f + k)).
    destruct s as [| c s]; [reflexivity |]. cbn [scan_once length] in Hb |- *.
    destruct (c =? Chr.DQUOTE); [reflexivity |].
    destruct (c =? 123).
    { destruct (Lex.skip_ws s) as [| c' r'] eqn:Hws; [reflexivity |].
      destruct (c' =? 125); [reflexivity |].
      apply IHmem. pose proof (skip_ws_length s) as Hlen.
      rewrite Hws in Hlen. lia. }
    destruct (c =? 91); [| reflexivity].
    destruct (Lex.skip_ws s) as [| c' r'] eqn:Hws; [reflexivity |].
    destruct (c' =? 93); [reflexivity |].
    apply IHel. pose proof (skip_ws_length s) as Hlen.
    rewrite Hws in Hlen. lia.
  - intros d s k Hb. change (S f + k)%nat with (S (f + k)).
    destruct s as [| c s]; [reflexivity |].
    cbn [parse_members length] in Hb |- *.
    destruct (c =? Chr.DQUOTE); [| reflexivity].
    destruct (Lex.scanstring s) as [[key r1] |] eqn:Hkey; [| reflexivity].
    apply Hstr in Hkey.
    destruct (Lex.skip_ws r1) as [| colon r2] eqn:Hws1; [reflexivity |].
    pose proof (skip_ws_length r1) as Hlen1. rewrite Hws1 in Hlen1.
    cbn [length] in Hlen1.
    destruct (colon =? 58); [| reflexivity].
    pose proof (skip_ws_length r2) as Hlen2.
    rewrite IHscan by lia.
    destruct (scan_once f (Lex.skip_ws r2)) as [[v r3] |] eqn:Hv;
      [| reflexivity].
    apply Hscan in Hv.
    destruct (Lex.skip_ws r3) as [| c4 r4] eqn:Hws3; [reflexivity |].
    pose proof (skip_ws_length r3) as Hlen3. rewrite Hws3 in Hlen3.
    cbn [length] in Hlen3.
    destruct (c4 =? 125); [reflexivity |].
    destruct (c4 =? 44); [| reflexivity].
    apply IHmem. pose proof (skip_ws_length r4) as Hlen4. lia.
  - intros acc s k Hb. change (S f + k)%nat with (S (f + k)).
    cbn [parse_elements]. rewrite IHscan by lia.
    destruct (scan_once f s) as [[v r] |] eqn:Hv; [| reflexivity].
    apply Hscan in Hv.
    destruct (Lex.skip_ws r) as [| c r'] eqn:Hws; [reflexivity |].
    pose proof (skip_ws_length r) as Hlen. rewrite Hws in Hlen.
    cbn [length] in Hlen.
    destruct (c =? 93); [reflexivity |].
    destruct (c =? 44); [| reflexivity].
    apply IHel. pose proof (skip_ws_length r') as Hlen'. lia.
Qed.

(** [json.loads] never runs out of fuel: with any fuel beyond the one it
    takes, the scanner gives the same result. *)
Lemma json_loads_fuel (s : text) (k : nat) :
  scan_once (2 * length s + 2 + k) (Lex.skip_ws s)
  = scan_once (2 * length s + 2) (Lex.skip_ws s).
Proof.
  destruct (decoder_fuel (2 * length s + 2)) as (Hscan & _ & _).
  apply Hscan. pose proof (skip_ws_length s). lia.
Qed.

End FuelFacts.

(** * Further properties of the code *)

(** ** The cleanup, the split and the trim *)

Section CleanupFacts.

Lemma strip_fences_absent (raw : text) :
  Str.contains FENCE raw = false -> strip_fences raw = raw.
Proof.
  intros Hraw. unfold strip_fences.
  assert (Hjson : Str.contains FENCE_JSON raw = false).
  { destruct (Str.contains FENCE_JSON raw) eqn:Hc; [| reflexivity].
    apply (contains_app FENCE (py "json")) in Hc.
    rewrite Hraw in Hc. discriminate Hc. }
  unfold FENCE_JSON at 1. rewrite (replace_absent _ _ _ _ Hjson).
  unfold FENCE at 1. apply replace_absent, Hraw.
Qed.

Lemma replace_from_sublist (old : text) (k : nat) (s : text) :
  sublist (Str.replace_from old [] k s) s.
Proof.
  revert k. induction s as [| c s IH]; intros k; [constructor |].
  cbn [Str.replace_from]. destruct k as [| k].
  - destruct (Str.startswith old (c :: s)).
    + cbn [app]. apply sublist_cons, IH.
    + apply sublist_skip, IH.
  - apply sublist_cons, IH.
Qed.

End CleanupFacts.

(** X1: the cleanup leaves a response as it is exactly when the response
    holds no three-backtick sequence, and cleaning a cleaned response
    changes nothing. *)
Theorem X1_cleanup_fixed_points (raw : text) :
  (strip_fences raw = raw <-> Str.contains FENCE raw = false) /\
  strip_fences (strip_fences raw) = strip_fences raw.
Proof.
  split; [split |].
  - intros Heq. rewrite <- Heq. apply strip_fences_clean.
  - apply strip_fences_absent.
  - apply strip_fences_absent, strip_fences_clean.
Qed.

(** X2: the cleanup only deletes characters: the cleaned text is the
    response with some characters left out, in the same order, and is
    never longer than the response. *)
Theorem X2_cleanup_only_deletes (raw : text) :
  sublist (strip_fences raw) raw /\
  (length (strip_fences raw) <= length raw)%nat.
Proof.
  assert (Hsub : sublist (strip_fences raw) raw).
  { unfold strip_fences, Str.replace, FENCE, FENCE_JSON.
    etransitivity; apply replace_from_sublist. }
  split; [exact Hsub | apply sublist_length, Hsub].
Qed.

Section PartitionFacts.

Lemma startswith_drop (pre s : text) :
  Str.startswith pre s = true -> s = pre ++ drop (length pre) s.
Proof.
  revert s. induction pre as [| p pre IH]; intros s Hs; [reflexivity |].
  destruct s as [| c s]; [discriminate Hs |]. cbn in Hs.
  apply andb_true_iff in Hs as [Hp Hs]. apply N.eqb_eq in Hp. subst c.
  cbn. f_equal. apply IH, Hs.
Qed.

Lemma startswith_extend (pre s t : text) :
  Str.startswith pre s = true -> Str.startswith pre (s ++ t) = true.
Proof.
  revert s. induction pre as [| p pre IH]; intros s Hs; [reflexivity |].
  destruct s as [| c s]; [discriminate Hs |]. cbn in Hs |- *.
  apply andb_true_iff in Hs as [Hp Hs]. rewrite Hp. cbn. apply IH, Hs.
Qed.

Lemma startswith_self (pre t : text) : Str.startswith pre (pre ++ t) = true.
Proof.
  induction pre as [| p pre IH]; [reflexivity |].
  cbn. rewrite N.eqb_refl. exact IH.
Qed.

Lemma contains_extend (sub s t : text) :
  Str.contains sub s = true -> Str.contains sub (s ++ t) = true.
Proof.
  induction s as [| c s IH]; cbn [Str.contains app]; intros Hs.
  - rewrite orb_false_r in Hs. destruct sub; [| discriminate Hs].
    destruct t; reflexivity.
  - apply orb_true_iff in Hs as [Hs | Hs].
    + apply (startswith_extend sub (c :: s) t) in Hs. cbn [app] in Hs.
      rewrite Hs. reflexivity.
    + rewrite (IH Hs). apply orb_true_r.
Qed.

Lemma contains_after (sub w s : text) :
  Str.contains sub s = true -> Str.contains sub (w ++ s) = true.
Proof.
  intros Hs. induction w as [| c w IH]; [exact Hs |].
  cbn [app Str.contains]. rewrite IH. apply orb_true_r.
Qed.

Lemma partition_app (p : N) (sep s a r : text) :
  Str.partition (p :: sep) s = Some (a, r) -> s = a ++ (p :: sep) ++ r.
Proof.
  revert a. induction s as [| c s IH]; intros a Hs; [discriminate Hs |].
  cbn [Str.partition] in Hs.
  destruct (Str.startswith (p :: sep) (c :: s)) eqn:Hhead.
  - injection Hs as <- <-. cbn [app]. apply (startswith_drop _ _ Hhead).
  - destruct (Str.partition (p :: sep) s) as [[a' r'] |]; [| discriminate Hs].
    injection Hs as <- <-. cbn [app]. f_equal. apply IH. reflexivity.
Qed.

Lemma partition_none (p : N) (sep s : text) :
  Str.partition (p :: sep) s = None <-> Str.contains (p :: sep) s = false.
Proof.
  induction s as [| c s IH]; [split; reflexivity |].
  cbn [Str.partition Str.contains].
  destruct (Str.startswith (p :: sep) (c :: s)); [split; discriminate |].
  cbn [orb]. rewrite <- IH.
  destruct (Str.partition (p :: sep) s) as [[a r] |]; split;
    (discriminate || reflexivity).
Qed.

Lemma partition_before (p : N) (sep s a r : text) :
  Str.partition (p :: sep) s = Some (a, r) ->
  Str.contains (p :: sep) a = false.
Proof.
  revert a. induction s as [| c s IH]; intros a Hs; [discriminate Hs |].
  cbn [Str.partition] in Hs.
  destruct (Str.startswith (p :: sep) (c :: s)) eqn:Hhead.
  - injection Hs as <- <-. reflexivity.
  - destruct (Str.partition (p :: sep) s) as [[a' r'] |] eqn:Hpart;
      [| discriminate Hs].
    injection Hs as <- <-. cbn [Str.contains].
    rewrite (IH a' eq_refl), orb_false_r.
    destruct (Str.startswith (p :: sep) (c :: a')) eqn:Ha; [| reflexivity].
    apply (startswith_extend _ _ ((p :: sep) ++ r')) in Ha.
    rewrite (partition_app _ _ _ _ _ Hpart) in Hhead.
    cbn [app] in Ha, Hhead. rewrite Ha in Hhead. discriminate Hhead.
Qed.

Lemma partition_shorter (p : N) (sep s a r : text) :
  Str.partition (p :: sep) s = Some (a, r) -> (length r < length s)%nat.
Proof.
  intros Hs. apply partition_app in Hs. subst s.
  rewrite !length_app. cbn [length]. lia.
Qed.

(** The pieces of a split, joined by the separator, are the text, and no
    piece holds the separator. *)
Lemma split_join (p : N) (sep s : text) :
  Enc.join (p :: sep) (Str.split (p :: sep) s) = s /\
  Forall (fun piece => Str.contains (p :: sep) piece = false)
    (Str.split (p :: sep) s).
Proof.
  remember (length s) as n eqn:Hn. revert s Hn.
  induction n as [n IH] using lt_wf_ind. intros s Hn.
  rewrite split_partition.
  destruct (Str.partition (p :: sep) s) as [[a r] |] eqn:Hpart.
  - pose proof (partition_shorter _ _ _ _ _ Hpart) as Hlen.
    destruct (IH (length r) ltac:(lia) r eq_refl) as [Hjoin Hall].
    split.
    + destruct (Str.split (p :: sep) r) as [| x l] eqn:Hsplit.
      * rewrite split_partition in Hsplit.
        destruct (Str.partition (p :: sep) r) as [[? ?] |];
          discriminate Hsplit.
      * change (Enc.join (p :: sep) (a :: x :: l))
          with (a ++ (p :: sep) ++ Enc.join (p :: sep) (x :: l)).
        rewrite Hjoin. symmetry. apply partition_app, Hpart.
    + constructor; [apply (partition_before _ _ _ _ _ Hpart) | exact Hall].
  - split; [reflexivity |]. constructor; [| constructor].
    apply partition_none, Hpart.
Qed.

End PartitionFacts.

(** X3: the parts that [connection.split('->')] gives, joined again by the
    arrow, are the entry itself, and no part holds an arrow. *)
Theorem X3_split_parts (connection : text) :
  Enc.join ARROW (Str.split ARROW connection) = connection /\
  Forall (fun part => Str.contains ARROW part = false)
    (Str.split ARROW connection).
Proof. apply split_join. Qed.

Section StripFacts.

Lemma lstrip_suffix (s : text) :
  exists w, s = w ++ Str.lstrip s /\ forallb Str.isspace w = true.
Proof.
  induction s as [| c s (w & Hw & Hspace)]; [exists []; split; reflexivity |].
  cbn [Str.lstrip]. destruct (Str.isspace c) eqn:Hc.
  - exists (c :: w). cbn. rewrite Hc, <- Hw. split; [reflexivity | exact Hspace].
  - exists []. split; reflexivity.
Qed.

Lemma lstrip_length (s : text) : (length (Str.lstrip s) <= length s)%nat.
Proof.
  destruct (lstrip_suffix s) as (w & Hw & _). rewrite Hw at 2.
  rewrite length_app. lia.
Qed.

Lemma lstrip_head (s : text) (c : N) (t : text) :
  Str.lstrip s = c :: t -> Str.isspace c = false.
Proof.
  induction s as [| x s IH]; [discriminate |].
  cbn [Str.lstrip]. destruct (Str.isspace x) eqn:Hx; [exact IH |].
  intros Hs. injection Hs as <- _. exact Hx.
Qed.

Lemma lstrip_fixed (c : N) (t : text) :
  Str.isspace c = false -> Str.lstrip (c :: t) = c :: t.
Proof. intros Hc. cbn [Str.lstrip]. rewrite Hc. reflexivity. Qed.

Lemma lstrip_idempotent (s : text) :
  Str.lstrip (Str.lstrip s) = Str.lstrip s.
Proof.
  destruct (Str.lstrip s) as [| c t] eqn:Hs; [reflexivity |].
  apply lstrip_fixed, (lstrip_head s c t Hs).
Qed.

Lemma rstrip_prefix (s : text) :
  exists w, s = Str.rstrip s ++ w /\ forallb Str.isspace w = true.
Proof.
  destruct (lstrip_suffix (rev s)) as (w & Hw & Hspace).
  exists (rev w). split.
  - unfold Str.rstrip. rewrite <- rev_app_distr, <- Hw, rev_involutive.
    reflexivity.
  - rewrite forallb_forall in Hspace |- *. intros x Hx.
    apply Hspace, in_rev, Hx.
Qed.

Lemma rstrip_idempotent (s : text) :
  Str.rstrip (Str.rstrip s) = Str.rstrip s.
Proof.
  unfold Str.rstrip. rewrite rev_involutive, lstrip_idempotent. reflexivity.
Qed.

(** Trimming on the right keeps a text without leading whitespace without
    leading whitespace. *)
Lemma lstrip_rstrip (s : text) :
  Str.lstrip s = s -> Str.lstrip (Str.rstrip s) = Str.rstrip s.
Proof.
  intros Hs. destruct (rstrip_prefix s) as (w & Hw & _).
  destruct (Str.rstrip s) as [| c t] eqn:Hr; [reflexivity |].
  apply lstrip_fixed. apply (lstrip_head s c (t ++ w)).
  rewrite Hs. exact Hw.
Qed.

Lemma strip_idempotent (s : text) : Str.strip (Str.strip s) = Str.strip s.
Proof.
  unfold Str.strip.
  rewrite (lstrip_rstrip (Str.lstrip s)) by apply lstrip_idempotent.
  apply rstrip_idempotent.
Qed.

(** The trimmed text sits inside the text, between two runs of
    whitespace. *)
Lemma strip_infix (s : text) :
  exists w1 w2,
    s = w1 ++ Str.strip s ++ w2 /\
    forallb Str.isspace w1 = true /\ forallb Str.isspace w2 = true.
Proof.
  destruct (lstrip_suffix s) as (w1 & Hw1 & Hs1).
  destruct (rstrip_prefix (Str.lstrip s)) as (w2 & Hw2 & Hs2).
  exists w1, w2. unfold Str.strip. rewrite <- Hw2. auto.
Qed.

Lemma strip_contains (sub s : text) :
  Str.contains sub s = false -> Str.contains sub (Str.strip s) = false.
Proof.
  intros Hs. destruct (Str.contains sub (Str.strip s)) eqn:Hc; [| reflexivity].
  destruct (strip_infix s) as (w1 & w2 & Hw & _).
  apply (contains_extend _ _ w2), (contains_after _ w1) in Hc.
  rewrite <- Hw, Hs in Hc. discriminate Hc.
Qed.

End StripFacts.

Section EdgeFacts.
Context `{PyNumbers}.

Lemma before_arrow_free (r : text) :
  Str.contains ARROW (before_arrow r) = false.
Proof.
  unfold before_arrow, ARROW.
  destruct (Str.partition [45; 62] r) as [[a r'] |] eqn:Hpart.
  - apply (partition_before _ _ _ _ _ Hpart).
  - apply partition_none, Hpart.
Qed.

Lemma connection_edge_has_arrow (connection : pyval) :
  is_Some (connection_edge connection) <-> has_arrow connection = true.
Proof.
  destruct connection as [| b | n | s | l | d];
    try (split; [intros [e He]; discriminate He | discriminate]).
  rewrite connection_edge_str. unfold has_arrow, ARROW.
  destruct (Str.partition [45; 62] s) as [[a r] |] eqn:Hpart.
  - split; [intros _ | intros _; eexists; reflexivity].
    destruct (Str.contains [45; 62] s) eqn:Hc; [reflexivity |].
    apply partition_none in Hc. rewrite Hc in Hpart. discriminate Hpart.
  - split; [intros [e He]; discriminate He |].
    apply partition_none in Hpart. rewrite Hpart. discriminate.
Qed.

End EdgeFacts.

(** X4: the two labels of an edge that the loop draws are trimmed (trimming
    them again changes nothing) and neither holds an arrow. *)
Theorem X4_edge_labels `{PyNumbers} (connection : pyval) (src dst : text) :
  connection_edge connection = Some (src, dst) ->
  Str.strip src = src /\ Str.strip dst = dst /\
  Str.contains ARROW src = false /\ Str.contains ARROW dst = false.
Proof.
  intros Hedge.
  destruct connection as [| b | n | s | l | d]; try discriminate Hedge.
  rewrite connection_edge_str in Hedge.
  destruct (Str.partition ARROW s) as [[a r] |] eqn:Hpart;
    [| discriminate Hedge].
  injection Hedge as <- <-.
  repeat split; try apply strip_idempotent.
  - apply strip_contains. unfold ARROW in Hpart |- *.
    apply (partition_before _ _ _ _ _ Hpart).
  - apply strip_contains, before_arrow_free.
Qed.

Lemma X4_witness :
  Str.strip (py "R1") = py "R1" /\ Str.strip (py "S1") = py "S1" /\
  Str.contains ARROW (py "R1") = false /\ Str.contains ARROW (py "S1") = false.
Proof.
  apply (@X4_edge_labels literal_numbers (PyStr (py "  R1 -> S1 -> PC1"))).
  vm_compute. reflexivity.
Defined.

(** X5: the loop draws one edge for each entry that is a string holding an
    arrow, and none for the others, so never more edges than entries. *)
Theorem X5_edge_count `{PyNumbers} (connections : list pyval) :
  length (topology_edges connections)
  = length (List.filter has_arrow connections) /\
  (length (topology_edges connections) <= length connections)%nat.
Proof.
  assert (Hcount : length (topology_edges connections)
                   = length (List.filter has_arrow connections)).
  { unfold topology_edges. rewrite topology_loop_omap. cbn [app].
    induction connections as [| c cs IH]; [reflexivity |].
    cbn [omap list_omap List.filter].
    pose proof (connection_edge_has_arrow c) as Harrow.
    destruct (connection_edge c) as [e |], (has_arrow c); cbn [length].
    - rewrite IH. reflexivity.
    - destruct Harrow as [Harrow _].
      discriminate (Harrow ltac:(eexists; reflexivity)).
    - destruct Harrow as [_ Harrow]. destruct (Harrow eq_refl) as [e He].
      discriminate He.
    - exact IH. }
  split; [exact Hcount |].
  rewrite Hcount. apply List.filter_length_le.
Qed.

(** ** The name of the download *)

Section FileNameFacts.

Lemma replace_char (a b : N) (s : text) :
  Str.replace [a] [b] s = (fun c => if a =? c then b else c) <$> s.
Proof.
  unfold Str.replace. induction s as [| c s IH]; [reflexivity |].
  rewrite replace_from_cons. cbn [Str.startswith length fmap list_fmap].
  rewrite andb_true_r, drop_0, IH. destruct (a =? c); reflexivity.
Qed.

Lemma underscored_inj (s t : text) :
  95 ∉ s -> 95 ∉ t ->
  Str.replace (py " ") (py "_") s = Str.replace (py " ") (py "_") t -> s = t.
Proof.
  change (py " ") with [32]. change (py "_") with [95].
  rewrite !replace_char. revert t.
  induction s as [| c s IH]; intros [| d t] Hs Ht Heq;
    try discriminate Heq; [reflexivity |].
  apply not_elem_of_cons in Hs as [Hc Hs]. apply not_elem_of_cons in Ht as [Hd Ht].
  cbn [fmap list_fmap] in Heq.
  pose proof (f_equal (List.hd 0) Heq) as Hhead.
  pose proof (f_equal (@List.tl N) Heq) as Htail. cbn [List.hd List.tl] in Hhead, Htail.
  f_equal; [| apply IH; assumption].
  revert Hhead. destruct (N.eqb_spec 32 c), (N.eqb_spec 32 d); congruence.
Qed.

End FileNameFacts.

(** X6: whatever the topic, the name of the download holds no space, starts
    with [lab_], ends with [.json] and is nine characters longer than the
    topic. *)
Theorem X6_file_name_shape (ui : Controls) :
  (32 ∉ download_file_name ui) /\
  (exists stem, download_file_name ui = py "lab_" ++ stem ++ py ".json" /\
                length stem = length (topic ui)) /\
  length (download_file_name ui) = (length (topic ui) + 9)%nat.
Proof.
  unfold download_file_name.
  change (py " ") with [32]. change (py "_") with [95]. rewrite replace_char.
  split; [| split].
  - intros Hin. rewrite !elem_of_app in Hin. destruct Hin as [Hin | [Hin | Hin]].
    + apply list_elem_of_In in Hin. cbn in Hin. intuition discriminate.
    + apply list_elem_of_fmap in Hin as (c & Hc & _).
      destruct (N.eqb_spec 32 c); [discriminate Hc | congruence].
    + apply list_elem_of_In in Hin. cbn in Hin. intuition discriminate.
  - eexists. split; [reflexivity | apply length_fmap].
  - rewrite !length_app, length_fmap. cbn. lia.
Qed.

(** X7: two topics that hold no underscore and get the same download name
    are the same topic; with an underscore the names can collide, as for
    [A B] and [A_B]. *)
Theorem X7_file_name_injective (ui1 ui2 : Controls) :
  (95 ∉ topic ui1 -> 95 ∉ topic ui2 ->
   download_file_name ui1 = download_file_name ui2 -> topic ui1 = topic ui2) /\
  download_file_name {| api_key := []; topic := py "A B"; difficulty := [] |}
  = download_file_name {| api_key := []; topic := py "A_B"; difficulty := [] |}.
Proof.
  split; [| reflexivity].
  intros H1 H2 Heq. unfold download_file_name in Heq.
  apply app_inv_head, app_inv_tail in Heq.
  apply underscored_inj; assumption.
Qed.

Lemma X7_witness :
  topic some_controls
  = topic {| api_key := py "other"; topic := py "OSPF Single Area";
             difficulty := py "CCIE Expert" |}.
Proof.
  apply (proj1 (X7_file_name_injective some_controls
                  {| api_key := py "other"; topic := py "OSPF Single Area";
                     difficulty := py "CCIE Expert" |})).
  - intros Hin. apply list_elem_of_In in Hin. cbn in Hin.
    intuition discriminate.
  - intros Hin. apply list_elem_of_In in Hin. cbn in Hin.
    intuition discriminate.
  - reflexivity.
Defined.

(** ** The prompt *)

Section PromptFacts.

Lemma unlines_cons (l : text) (ls : list text) :
  unlines (l :: ls) = l ++ Chr.NL :: unlines ls.
Proof. unfold unlines. cbn [flat_map]. rewrite <- app_assoc. reflexivity. Qed.

Lemma contains_infix (sub a b : text) : Str.contains sub (a ++ sub ++ b) = true.
Proof.
  apply contains_after. destruct sub as [| c sub]; [destruct b; reflexivity |].
  pose proof (startswith_self (c :: sub) b) as Hself.
  cbn [app Str.contains] in Hself |- *. rewrite Hself. reflexivity.
Qed.

End PromptFacts.

(** X8: whatever the topic and the difficulty, also outside the options of
    the two controls, the prompt holds both as they are, the topic before
    the difficulty, and names each of the seven keys of a lab in double
    quotes. *)
Theorem X8_prompt_for_any_input (t d : text) :
  (exists a b c, get_lab_prompt t d = a ++ t ++ b ++ d ++ c) /\
  Str.contains t (get_lab_prompt t d) = true /\
  Str.contains d (get_lab_prompt t d) = true /\
  Forall (fun field =>
            Str.contains (Chr.DQUOTE :: field ++ [Chr.DQUOTE])
              (get_lab_prompt t d) = true) LAB_FIELDS.
Proof.
  assert (Hshape : exists a b c,
    get_lab_prompt t d = a ++ t ++ b ++ d ++ c /\
    Forall (fun field =>
              Str.contains (Chr.DQUOTE :: field ++ [Chr.DQUOTE]) c = true)
      LAB_FIELDS).
  { unfold get_lab_prompt. do 4 rewrite unlines_cons.
    match goal with
    | |- context [unlines ?r] => remember (unlines r) as rest eqn:Hrest
    end.
    exists ([] ++ Chr.NL
            :: py "    Act as a Cisco Certified Internetwork Expert (CCIE)."
            ++ Chr.NL :: py "    Create a CCNA Practice Lab for the topic: "),
           (py "." ++ Chr.NL :: py "    Difficulty Level: "),
           (py "." ++ Chr.NL :: rest ++ py "    ").
    split.
    - repeat (rewrite <- app_assoc; cbn [app]). reflexivity.
    - subst rest. repeat constructor; vm_compute; reflexivity. }
  destruct Hshape as (a & b & c & Heq & Hfields).
  split; [exists a, b, c; exact Heq |]. rewrite Heq.
  split; [apply contains_infix |].
  split.
  - rewrite (app_assoc a t), (app_assoc (a ++ t) b). apply contains_infix.
  - eapply Forall_impl; [exact Hfields |].
    intros field Hfield. cbn beta in Hfield |- *.
    rewrite !app_assoc. apply contains_after, Hfield.
Qed.

(** ** What the decoder returns *)

Section DecodedFacts.
Context `{PyNumbers}.

Lemma dict_set_key (x k : text) (v : pyval) (d : list (text * pyval)) :
  x ∈ (dict_set k v d).*1 <-> x = k \/ x ∈ d.*1.
Proof.
  induction d as [| [k' v'] d IH]; cbn [dict_set].
  - rewrite fmap_cons, fmap_nil, list_elem_of_singleton. cbn.
    split; [auto | intros [-> | Hin]; [reflexivity | inversion Hin]].
  - destruct (decide (k = k')) as [-> | Hne]; rewrite !fmap_cons; cbn [fst].
    + rewrite elem_of_cons. tauto.
    + rewrite !elem_of_cons, IH. tauto.
Qed.

Lemma dict_set_nodup (k : text) (v : pyval) (d : list (text * pyval)) :
  NoDup (d.*1) -> NoDup ((dict_set k v d).*1).
Proof.
  induction d as [| [k' v'] d IH]; intros Hd; cbn [dict_set].
  - cbn. apply NoDup_singleton.
  - rewrite fmap_cons in Hd. apply NoDup_cons in Hd as [Hk' Hd]. cbn [fst] in Hk'.
    destruct (decide (k = k')) as [-> | Hne]; rewrite fmap_cons; cbn [fst];
      apply NoDup_cons.
    + split; assumption.
    + split; [| apply IH, Hd].
      rewrite dict_set_key. intros [-> | Hin]; [apply Hne; reflexivity | auto].
Qed.

Lemma dict_set_values (P : pyval -> bool) (k : text) (v : pyval)
    (d : list (text * pyval)) :
  P v = true -> forallb (fun kv => P kv.2) d = true ->
  forallb (fun kv => P kv.2) (dict_set k v d) = true.
Proof.
  intros Hv. induction d as [| [k' v'] d IH]; intros Hd; cbn [dict_set].
  - cbn. rewrite Hv. reflexivity.
  - cbn [forallb snd] in Hd. apply andb_true_iff in Hd as [Hv' Hd].
    destruct (decide (k = k')); cbn [forallb snd].
    + rewrite Hv, Hd. reflexivity.
    + rewrite Hv', (IH Hd). reflexivity.
Qed.

Lemma forallb_snoc {A} (P : A -> bool) (l : list A) (x : A) :
  forallb P l = true -> P x = true -> forallb P (l ++ [x]) = true.
Proof.
  intros Hl Hx. rewrite forallb_app, Hl. cbn. rewrite Hx. reflexivity.
Qed.

Lemma decoded_keys_distinct (fuel : nat) :
  (forall s v r, scan_once fuel s = Some (v, r) -> keys_distinct v = true) /\
  (forall d s v r,
     parse_members fuel d s = Some (v, r) ->
     NoDup (d.*1) -> forallb (fun kv => keys_distinct kv.2) d = true ->
     keys_distinct v = true) /\
  (forall acc s v r,
     parse_elements fuel acc s = Some (v, r) ->
     forallb keys_distinct acc = true -> keys_distinct v = true).
Proof.
  induction fuel as [| f (IHscan & IHmem & IHel)];
    [repeat split; intros; discriminate |].
  repeat split.
  - intros s v r Hs. destruct s as [| c s]; [discriminate Hs |].
    cbn [scan_once] in Hs. unfold constant, scan_number, Lex.after in Hs.
    unfold number in Hs.
    repeat (case_match; simplify_eq); try reflexivity.
    + eapply IHmem; [eassumption | constructor | reflexivity].
    + eapply IHel; [eassumption | reflexivity].
  - intros d s v r Hs Hnodup Hvalues. destruct s as [| c s]; [discriminate Hs |].
    cbn [parse_members] in Hs.
    repeat (case_match; simplify_eq).
    + cbn [keys_distinct]. apply andb_true_iff. split.
      * apply dict_set_values; [eapply IHscan; eassumption | exact Hvalues].
      * apply bool_decide_eq_true, dict_set_nodup, Hnodup.
    + eapply IHmem; [eassumption | apply dict_set_nodup, Hnodup |].
      apply dict_set_values; [eapply IHscan; eassumption | exact Hvalues].
  - intros acc s v r Hs Hacc. cbn [parse_elements] in Hs.
    repeat (case_match; simplify_eq).
    + cbn [keys_distinct]. apply forallb_snoc; [exact Hacc |].
      eapply IHscan; eassumption.
    + eapply IHel; [eassumption |].
      apply forallb_snoc; [exact Hacc | eapply IHscan; eassumption].
Qed.

Lemma json_loads_keys_distinct (s : text) (v : pyval) :
  json_loads s = Some v -> keys_distinct v = true.
Proof.
  unfold json_loads. intros Hs.
  destruct (scan_once _ _) as [[v' r] |] eqn:Hscan; [| discriminate Hs].
  destruct (Lex.skip_ws r); [| discriminate Hs]. injection Hs as <-.
  destruct (decoded_keys_distinct (2 * length s + 2)) as (Hkeys & _ & _).
  apply (Hkeys _ _ _ Hscan).
Qed.

End DecodedFacts.

(** X9: in every value that [json.loads] returns, and so in every value the
    lab generator returns, the keys of each dict are distinct, at every
    depth: a key written twice in the response is kept once. *)
Theorem X9_decoded_keys_distinct `{PyNumbers} `{Environment} :
  (forall s v, json_loads s = Some v -> keys_distinct v = true) /\
  (forall ui w, keys_distinct (generate_lab ui w).1 = true).
Proof.
  split; [exact json_loads_keys_distinct |].
  intros ui w. unfold generate_lab. case_bool_decide; [reflexivity |].
  unfold bind, call_provider.
  destruct (generate_content _ _ _) as [e | t]; [reflexivity |].
  cbn zeta. destruct (json_loads (strip_fences t)) as [v |] eqn:Hv;
    [| reflexivity].
  apply (json_loads_keys_distinct _ _ Hv).
Qed.

Lemma X9_witness :
  @keys_distinct literal_numbers
    (PyDict [(py "a", @PyNum literal_numbers (py "3"));
             (py "b", @PyNum literal_numbers (py "2"))]) = true.
Proof.
  apply (proj1 (@X9_decoded_keys_distinct literal_numbers
                  (stub_provider (inl [])))
           (dq "{'a': 1, 'b': 2, 'a': 3}")).
  vm_compute. reflexivity.
Defined.

(** ** What the encoder writes *)

Section EncodedFacts.
Context `{PyNumbers}.

Lemma hex_digit_plain (d : N) :
  d < 16 -> is_plain_ascii (Enc.hex_digit d) = true.
Proof.
  intros Hd. unfold is_plain_ascii, Enc.hex_digit.
  apply orb_true_iff. right. apply andb_true_iff.
  destruct (N.ltb_spec d 10); split; apply N.leb_le; lia.
Qed.

Lemma u_escape_plain (n : N) : forallb is_plain_ascii (Enc.u_escape n) = true.
Proof.
  unfold Enc.u_escape. cbn [forallb].
  rewrite !hex_digit_plain
    by (rewrite land_15; apply N.mod_lt; discriminate).
  reflexivity.
Qed.

Lemma escape_char_plain (c : N) :
  forallb is_plain_ascii (Enc.escape_char c) = true.
Proof.
  unfold Enc.escape_char.
  repeat (case_match; try reflexivity).
  - cbn [forallb]. unfold is_plain_ascii.
    match goal with Hc : (_ && _) = true |- _ => rewrite Hc end.
    rewrite orb_true_r. reflexivity.
  - apply u_escape_plain.
  - rewrite forallb_app, !u_escape_plain. reflexivity.
Qed.

Lemma escaped_plain (s : text) :
  forallb is_plain_ascii (Enc.encode_basestring_ascii s) = true.
Proof.
  unfold Enc.encode_basestring_ascii. cbn [forallb].
  rewrite forallb_app. cbn [forallb].
  change (is_plain_ascii Chr.DQUOTE) with true. cbn [andb].
  rewrite andb_true_r.
  induction s as [| c s IH]; [reflexivity |].
  cbn [flat_map]. rewrite forallb_app, escape_char_plain, IH. reflexivity.
Qed.

Lemma newline_indent_plain (indent level : nat) :
  forallb is_plain_ascii (Enc.newline_indent indent level) = true.
Proof.
  unfold Enc.newline_indent. cbn [forallb].
  change (is_plain_ascii Chr.NL) with true. cbn [andb].
  induction (indent * level)%nat as [| n IH]; [reflexivity |].
  cbn [replicate forallb]. rewrite IH. reflexivity.
Qed.

Lemma join_plain (sep : text) (items : list text) :
  forallb is_plain_ascii sep = true ->
  Forall (fun item => forallb is_plain_ascii item = true) items ->
  forallb is_plain_ascii (Enc.join sep items) = true.
Proof.
  intros Hsep. induction 1 as [| x l Hx Hl IH]; [reflexivity |].
  destruct l as [| y l]; [exact Hx |].
  change (Enc.join sep (x :: y :: l)) with (x ++ sep ++ Enc.join sep (y :: l)).
  rewrite !forallb_app, Hx, Hsep, IH. reflexivity.
Qed.

Lemma encode_plain (indent : nat) (v : pyval) :
  forall level,
    number_free v = true ->
    forallb is_plain_ascii (encode indent level v) = true.
Proof.
  induction v as [| b | n | s | l IHl | d IHd] using pyval_nested_ind;
    intros level Hv.
  - reflexivity.
  - destruct b; reflexivity.
  - discriminate Hv.
  - apply escaped_plain.
  - destruct l as [| x l]; [reflexivity |].
    change (encode indent level (PyList (x :: l)))
      with ([91] ++ Enc.newline_indent indent (S level)
            ++ Enc.join ([44] ++ Enc.newline_indent indent (S level))
                 (encode indent (S level) <$> x :: l)
            ++ Enc.newline_indent indent level ++ [93]).
    rewrite !forallb_app, !newline_indent_plain. cbn [forallb andb].
    change (is_plain_ascii 91) with true.
    change (is_plain_ascii 93) with true. cbn [andb].
    rewrite !andb_true_r. apply join_plain.
    + cbn [app forallb]. rewrite newline_indent_plain. reflexivity.
    + cbn [number_free] in Hv. rewrite forallb_forall in Hv.
      apply Forall_fmap, Forall_forall. intros y Hy.
      rewrite Forall_forall in IHl. apply (IHl y Hy), Hv.
      apply list_elem_of_In, Hy.
  - destruct d as [| kv d]; [reflexivity |].
    change (encode indent level (PyDict (kv :: d)))
      with ([123] ++ Enc.newline_indent indent (S level)
            ++ Enc.join ([44] ++ Enc.newline_indent indent (S level))
                 ((fun kv => Enc.encode_basestring_ascii kv.1 ++ [58; 32]
                             ++ encode indent (S level) kv.2) <$> kv :: d)
            ++ Enc.newline_indent indent level ++ [125]).
    rewrite !forallb_app, !newline_indent_plain. cbn [forallb andb].
    change (is_plain_ascii 123) with true.
    change (is_plain_ascii 125) with true. cbn [andb].
    rewrite !andb_true_r. apply join_plain.
    + cbn [app forallb]. rewrite newline_indent_plain. reflexivity.
    + cbn [number_free] in Hv. rewrite forallb_forall in Hv.
      apply Forall_fmap, Forall_forall. intros y Hy. unfold compose.
      rewrite Forall_forall in IHd.
      rewrite !forallb_app, escaped_plain, (IHd y Hy); [reflexivity |].
      apply Hv, list_elem_of_In, Hy.
Qed.

End EncodedFacts.

(** X10: the text that [json.dumps] writes for a value without numbers, as
    for the download, holds only printable ASCII characters and line
    feeds, whatever characters the strings of the value hold. *)
Theorem X10_download_is_ascii `{PyNumbers} (indent : nat) (v : pyval) :
  number_free v = true ->
  forallb is_plain_ascii (json_dumps indent v) = true.
Proof. intros Hv. apply encode_plain, Hv. Qed.

Lemma X10_witness :
  forallb is_plain_ascii (@json_dumps literal_numbers 4 seven_field_lab) = true.
Proof.
  apply (@X10_download_is_ascii literal_numbers 4 seven_field_lab).
  vm_compute. reflexivity.
Defined.

(** X11: whatever the indentation, [json.loads] reads back the value that
    [json.dumps] wrote, for every value made of [None], booleans, strings of
    Unicode scalar values, lists and dicts with distinct keys: also for a
    stored value that is not a lab. *)
Theorem X11_round_trip_any_value `{PyNumbers} (indent : nat) (v : pyval) :
  well_formed v = true ->
  json_loads (json_dumps indent v) = Some v.
Proof. apply json_round_trip. Qed.

Lemma X11_witness :
  @json_loads literal_numbers (json_dumps 0 six_field_lab) = Some six_field_lab.
Proof.
  apply (@X11_round_trip_any_value literal_numbers 0 six_field_lab).
  vm_compute. reflexivity.
Defined.

(** ** The button handler *)

Section HandlerFacts.
Context `{PyNumbers} `{Environment}.

(** The messages of a run of [generate_lab]: none, or one. *)
Lemma generate_lab_errors (ui : Controls) (w : World) :
  errors (generate_lab ui w).2 = errors w \/
  (generate_lab ui w).1 = PyNone /\
  exists msg,
    errors (generate_lab ui w).2 = errors w ++ [msg] /\
    (msg = py "Please enter the API Key in the sidebar!" \/
     Str.startswith (py "Error generating lab: ") msg = true).
Proof.
  unfold generate_lab. case_bool_decide as Hkey.
  - right. split; [reflexivity |]. eexists. split; [reflexivity |]. left.
    reflexivity.
  - unfold bind, call_provider.
    destruct (generate_content _ _ _) as [e | t].
    + right. split; [reflexivity |]. eexists. split; [reflexivity |]. right.
      apply startswith_self.
    + cbn zeta. destruct (json_loads (strip_fences t)).
      * left. reflexivity.
      * right. split; [reflexivity |]. eexists. split; [reflexivity |]. right.
        apply startswith_self.
Qed.

Lemma on_generate_errors (ui : Controls) (w : World) :
  errors (on_generate ui w).2 = errors (generate_lab ui w).2.
Proof.
  rewrite on_generate_world. destruct (generate_lab ui w) as [v w'].
  destruct (truthy v); reflexivity.
Qed.

Lemma on_generate_session (ui : Controls) (w : World) :
  session_state (on_generate ui w).2 =
    if truthy (generate_lab ui w).1
    then <[py "lab_data" := (generate_lab ui w).1]> (session_state w)
    else session_state w.
Proof.
  rewrite on_generate_world. pose proof (generate_lab_session ui w) as Hss.
  destruct (generate_lab ui w) as [v w']. cbn [fst snd] in Hss |- *.
  destruct (truthy v); cbn; rewrite Hss; reflexivity.
Qed.

End HandlerFacts.

(** X12: a click on the button touches no key of the session state but
    [lab_data], whatever the provider answers; and [lab_data] itself is
    either left as it was or set to the value the lab generator returned. *)
Theorem X12_other_session_keys_kept `{PyNumbers} `{Environment}
    (ui : Controls) (w : World) :
  (forall k, k <> py "lab_data" ->
     session_state (on_generate ui w).2 !! k = session_state w !! k) /\
  (session_state (on_generate ui w).2 !! py "lab_data"
     = session_state w !! py "lab_data" \/
   session_state (on_generate ui w).2 !! py "lab_data"
     = Some (generate_lab ui w).1).
Proof.
  rewrite on_generate_session. destruct (truthy (generate_lab ui w).1).
  - split.
    + intros k Hk. apply lookup_insert_ne. congruence.
    + right. apply lookup_insert_eq.
  - split; [reflexivity | left; reflexivity].
Qed.

(** X13: when the cleaned response parses to a value that Python takes as
    false (an empty dict, list or string, [false], [null], a zero), the
    click stores nothing and shows no message: the session state and the
    messages are as before. *)
Theorem X13_falsy_response_is_silent `{PyNumbers} `{Environment}
    (ui : Controls) (w : World) (t : text) (v : pyval) :
  api_key ui <> [] ->
  generate_content (length (calls w)) (api_key ui)
    (get_lab_prompt (topic ui) (difficulty ui)) = inr t ->
  json_loads (strip_fences t) = Some v ->
  truthy v = false ->
  session_state (on_generate ui w).2 = session_state w /\
  errors (on_generate ui w).2 = errors w.
Proof.
  intros Hkey Hout Hdec Hfalse.
  rewrite on_generate_session, on_generate_errors.
  rewrite (generate_lab_decoded ui w t v Hkey Hout Hdec). cbn [fst snd].
  rewrite Hfalse. split; reflexivity.
Qed.

Lemma X13_witness :
  let env := stub_provider (inr (py "```json {} ```")) in
  session_state (@on_generate literal_numbers env some_controls empty_world).2
  = session_state (@empty_world literal_numbers) /\
  errors (@on_generate literal_numbers env some_controls empty_world).2
  = errors (@empty_world literal_numbers).
Proof.
  intros env.
  apply (@X13_falsy_response_is_silent literal_numbers env some_controls
           empty_world (py "```json {} ```") (PyDict [])).
  - discriminate.
  - reflexivity.
  - vm_compute. reflexivity.
  - reflexivity.
Defined.

(** X14: a click shows at most one error message, after the ones already
    shown; the message is the missing-key one or starts with [Error
    generating lab: ]; and when a message is shown nothing is stored and the
    lab generator has returned [None]. *)
Theorem X14_one_message_at_most `{PyNumbers} `{Environment}
    (ui : Controls) (w : World) :
  exists shown,
    errors (on_generate ui w).2 = errors w ++ shown /\
    (length shown <= 1)%nat /\
    Forall (fun msg =>
              msg = py "Please enter the API Key in the sidebar!" \/
              Str.startswith (py "Error generating lab: ") msg = true) shown /\
    (shown <> [] ->
     (generate_lab ui w).1 = PyNone /\
     session_state (on_generate ui w).2 = session_state w).
Proof.
  rewrite on_generate_errors, on_generate_session.
  destruct (generate_lab_errors ui w) as [Hsame | (Hnone & msg & Hmsg & Hform)].
  - exists []. rewrite app_nil_r.
    split; [exact Hsame |]. split; [cbn; lia |]. split; [constructor |].
    congruence.
  - exists [msg]. rewrite Hnone. cbn [truthy].
    split; [exact Hmsg |]. split; [cbn; lia |].
    split; [constructor; [exact Hform | constructor] |].
    intros _. split; reflexivity.
Qed.

(** X15: when the cleaned response parses to a value that Python takes as
    true, the click stores that value under [lab_data] in place of whatever
    was stored before, shows no message and has called the provider once. *)
Theorem X15_success_replaces_lab `{PyNumbers} `{Environment}
    (ui : Controls) (w : World) (t : text) (v : pyval) :
  api_key ui <> [] ->
  generate_content (length (calls w)) (api_key ui)
    (get_lab_prompt (topic ui) (difficulty ui)) = inr t ->
  json_loads (strip_fences t) = Some v ->
  truthy v = true ->
  session_state (on_generate ui w).2
  = <[py "lab_data" := v]> (session_state w) /\
  session_state (on_generate ui w).2 !! py "lab_data" = Some v /\
  errors (on_generate ui w).2 = errors w /\
  calls (on_generate ui w).2
  = calls w ++ [(api_key ui, get_lab_prompt (topic ui) (difficulty ui))].
Proof.
  intros Hkey Hout Hdec Htrue.
  rewrite on_generate_session, on_generate_errors, on_generate_world.
  rewrite (generate_lab_decoded ui w t v Hkey Hout Hdec). cbn [fst snd].
  rewrite Htrue. repeat split. apply lookup_insert_eq.
Qed.

Lemma X15_witness :
  let env := stub_provider (inr six_field_payload) in
  let w : @World literal_numbers :=
    {| errors := []; calls := [];
       session_state := {[ py "lab_data" := seven_field_lab ]} |} in
  session_state (@on_generate literal_numbers env some_controls w).2
  = <[py "lab_data" := six_field_lab]> (session_state w) /\
  session_state (@on_generate literal_numbers env some_controls w).2
    !! py "lab_data" = Some six_field_lab /\
  errors (@on_generate literal_numbers env some_controls w).2 = errors w /\
  calls (@on_generate literal_numbers env some_controls w).2
  = calls w ++ [(api_key some_controls,
                 get_lab_prompt (topic some_controls) (difficulty some_controls))].
Proof.
  intros env w.
  apply (@X15_success_replaces_lab literal_numbers env some_controls w
           six_field_payload six_field_lab).
  - discriminate.
  - reflexivity.
  - vm_compute. reflexivity.
  - reflexivity.
Defined.

(** ** The display *)

Section DisplayFacts.
Context `{PyNumbers} `{!PyRepr}.

Lemma py_inj (a b : string) : py a = py b -> a = b.
Proof.
  unfold py. intros Hab.
  assert (Hinj : Inj (=) (=) N_of_ascii).
  { intros x y Hxy.
    rewrite <- (ascii_N_embedding x), <- (ascii_N_embedding y), Hxy.
    reflexivity. }
  apply (list_fmap_eq_inj N_of_ascii) in Hab; [| exact Hinj].
  rewrite <- (string_of_list_ascii_of_string a),
    <- (string_of_list_ascii_of_string b), Hab. reflexivity.
Qed.

Lemma decimal_inj (j k : nat) : decimal j = decimal k -> j = k.
Proof. intros Hjk. apply py_inj in Hjk. apply (inj pretty), Hjk. Qed.

Lemma py_is_text (a : string) : is_text (py a) = true.
Proof.
  unfold is_text, py. apply forallb_forall. intros c Hc.
  apply list_elem_of_In, list_elem_of_fmap in Hc as (x & -> & _).
  unfold is_scalar. apply orb_true_iff. left. apply N.ltb_lt.
  pose proof (N_ascii_bounded x). lia.
Qed.

Lemma decimal_is_text (n : nat) : is_text (decimal n) = true.
Proof. apply py_is_text. Qed.

(** The loop over the tasks writes one line for each, numbered from the
    index it starts with. *)
Lemma write_tasks_lines (tasks : list pyval) :
  forall i out,
    write_tasks i tasks out =
      (inr tt,
       out ++ imap (fun k task =>
                      (Column2,
                       StWrite (PyStr (py "**" ++ decimal (i + k + 1)
                                       ++ py ".** " ++ py_str task))))
                tasks).
Proof.
  induction tasks as [| task tasks IH]; intros i out.
  - cbn. rewrite app_nil_r. reflexivity.
  - cbn [write_tasks imap]. unfold r_bind, emit. rewrite IH.
    rewrite <- app_assoc. cbn [app]. rewrite Nat.add_0_r.
    do 3 f_equal. apply imap_ext. intros k x _. cbn.
    replace (S (i + k + 1)) with (i + S k + 1)%nat by lia. reflexivity.
Qed.

End DisplayFacts.

(** X16: for tasks that are strings of Unicode scalar values, the loop
    over the tasks writes one line for each task, in order, the line of the
    task at position [k] (from 0) being [**k+1.** ] followed by the task;
    and two positions never get the same number. *)
Theorem X16_task_lines `{PyNumbers} `{!PyRepr}
    (tasks : list pyval) (out : list (place * element)) :
  forallb is_text_str tasks = true ->
  write_tasks 0 tasks out =
    (inr tt,
     out ++ imap (fun k task =>
                    (Column2,
                     StWrite (PyStr (py "**" ++ decimal (k + 1) ++ py ".** "
                                     ++ py_str task))))
              tasks) /\
  Forall (fun line => exists text, line = (Column2, StWrite (PyStr text)) /\
                                   is_text text = true)
    (drop (length out) (write_tasks 0 tasks out).2) /\
  (forall j k, decimal (j + 1) = decimal (k + 1) -> j = k).
Proof.
  intros Htasks. rewrite write_tasks_lines. cbn [snd].
  split; [reflexivity |]. split.
  - rewrite drop_app_length. apply Forall_forall. intros line Hline.
    apply list_elem_of_lookup in Hline as [k Hk].
    apply list_lookup_imap_Some in Hk as (task & Htask & ->).
    eexists. split; [reflexivity |].
    rewrite forallb_forall in Htasks.
    assert (Hin : In task tasks)
      by (apply list_elem_of_In, list_elem_of_lookup; eauto).
    apply Htasks in Hin. destruct task; try discriminate Hin.
    cbn [py_str is_text_str] in Hin |- *. unfold is_text in Hin |- *.
    pose proof (decimal_is_text (0 + k + 1)) as Hnumber.
    unfold is_text in Hnumber. rewrite !forallb_app, Hin, Hnumber.
    reflexivity.
  - intros j k Hjk. apply decimal_inj in Hjk. lia.
Qed.

Lemma X16_witness :
  let tasks : list (@pyval literal_numbers) :=
    [PyStr (py "Configure OSPF"); PyStr (py "Verify neighbors")] in
  @write_tasks literal_numbers plain_repr 0 tasks [] =
    (inr tt,
     [] ++ imap (fun k task =>
                   (Column2,
                    StWrite (PyStr (py "**" ++ decimal (k + 1) ++ py ".** "
                                    ++ @py_str literal_numbers plain_repr task))))
             tasks) /\
  Forall (fun line => exists text, line = (Column2, StWrite (PyStr text)) /\
                                   is_text text = true)
    (drop (length (@nil (place * @element literal_numbers)))
       (@write_tasks literal_numbers plain_repr 0 tasks []).2) /\
  (forall j k, decimal (j + 1) = decimal (k + 1) -> j = k).
Proof.
  intros tasks.
  apply (@X16_task_lines literal_numbers plain_repr tasks []).
  reflexivity.
Defined.

Section DisplayRuns.
Context `{PyNumbers} `{!PyRepr}.

Lemma field_is_get (test : pyval -> bool) (field : string)
    (d : list (text * pyval)) :
  field_is test field d = true ->
  exists x, dict_get (py field) d = Some x /\ test x = true.
Proof.
  unfold field_is. destruct (dict_get (py field) d) as [x |]; [| discriminate].
  intros Hx. exists x. split; [reflexivity | exact Hx].
Qed.

Lemma is_str_list_iterate (v : pyval) :
  is_str_list v = true -> exists l, iterate v = inr l.
Proof. destruct v; try discriminate. intros _. eexists. reflexivity. Qed.

End DisplayRuns.

(** X17: when the display code runs to its end without an exception, the
    stored value is a dict that holds all seven keys of a lab. *)
Theorem X17_display_needs_seven_fields `{PyNumbers} `{!PyRepr}
    (ui : Controls) (data : pyval) (out out' : list (place * element)) :
  display ui data out = (inr tt, out') ->
  (exists d, data = PyDict d) /\
  Forall (fun field => has_field field data = true) LAB_FIELDS.
Proof.
  intros Hrun.
  destruct data as [| b | n | s | l | d]; try discriminate Hrun.
  split; [eexists; reflexivity |].
  unfold display, r_bind, lift, emit, subscript in Hrun.
  repeat (case_match; simplify_eq).
  unfold LAB_FIELDS, has_field.
  repeat constructor; apply bool_decide_eq_true;
    match goal with
    | E : dict_get ?k d = Some _ |- is_Some (dict_get ?k d) =>
      rewrite E; eexists; reflexivity
    end.
Qed.

Lemma X17_witness :
  (exists d, seven_field_lab = PyDict d) /\
  Forall (fun field => has_field field seven_field_lab = true) LAB_FIELDS.
Proof.
  apply (@X17_display_needs_seven_fields literal_numbers plain_repr
           some_controls seven_field_lab []
           (@display literal_numbers plain_repr some_controls
              seven_field_lab []).2).
  vm_compute. reflexivity.
Defined.

(** X18: a lab with its seven fields is displayed without an exception;
    the elements already on the page stay in front, the last element put on
    the page is the download button, and the text it offers parses back to
    the lab that is displayed. *)
Theorem X18_display_of_a_lab `{PyNumbers} `{!PyRepr}
    (ui : Controls) (lab : pyval) (out : list (place * element)) :
  is_lab lab = true ->
  (display ui lab out).1 = inr tt /\
  out `prefix_of` (display ui lab out).2 /\
  last (display ui lab out).2
  = Some (Page,
          StDownloadButton (py "Download Lab as JSON") (json_dumps 4 lab)
            (download_file_name ui) (py "application/json")) /\
  json_loads (json_dumps 4 lab) = Some lab.
Proof.
  intros Hlab. pose proof Hlab as Hfields. unfold is_lab in Hfields.
  apply andb_true_iff in Hfields as [Hwf Hfields].
  destruct lab as [| b | n | s | l | d]; try discriminate Hfields.
  repeat (apply andb_true_iff in Hfields as [Hfields ?]).
  repeat match goal with
         | Hf : field_is _ _ d = true |- _ =>
           apply field_is_get in Hf as (? & ? & ?)
         end.
  repeat match goal with
         | Hl : is_str_list _ = true |- _ =>
           apply is_str_list_iterate in Hl as (? & ?)
         end.
  unfold display, r_bind, lift, emit, subscript.
  repeat match goal with
         | E : dict_get _ d = Some _ |- _ => rewrite E; clear E
         | E : iterate _ = inr _ |- _ => rewrite E; clear E
         end.
  rewrite write_tasks_lines. cbn [fst snd].
  split; [reflexivity |]. split; [| split].
  - repeat rewrite <- app_assoc. apply prefix_app_r. reflexivity.
  - apply last_snoc.
  - apply json_round_trip, Hwf.
Qed.

Lemma X18_witness :
  let run := @display literal_numbers plain_repr some_controls
               seven_field_lab page_head in
  run.1 = inr tt /\
  page_head `prefix_of` run.2 /\
  last run.2
  = Some (Page,
          StDownloadButton (py "Download Lab as JSON")
            (json_dumps 4 seven_field_lab)
            (download_file_name some_controls) (py "application/json")) /\
  json_loads (json_dumps 4 seven_field_lab) = Some seven_field_lab.
Proof.
  apply (@X18_display_of_a_lab literal_numbers plain_repr some_controls
           seven_field_lab page_head).
  vm_compute. reflexivity.
Defined.

(** X19: when the stored value has no [lab_title] (it is a dict without
    that key, or not a dict at all), the display code raises at its first
    line, [KeyError] for a dict and [TypeError] otherwise, and puts nothing
    on the page. *)
Theorem X19_display_without_title `{PyNumbers} `{!PyRepr}
    (ui : Controls) (data : pyval) (out : list (place * element)) :
  has_field (py "lab_title") data = false ->
  display ui data out =
    (inl match data with
         | PyDict _ => KeyError (py "lab_title")
         | _ => TypeError
         end, out).
Proof.
  intros Hfield. destruct data as [| b | n | s | l | d]; try reflexivity.
  unfold has_field in Hfield. apply bool_decide_eq_false in Hfield.
  unfold display, r_bind, lift, subscript.
  destruct (dict_get (py "lab_title") d) as [x |] eqn:Hx; [| reflexivity].
  exfalso. apply Hfield. eexists. reflexivity.
Qed.

Lemma X19_witness :
  @display literal_numbers plain_repr some_controls
    (PyList [PyStr (py "R1 -> S1")]) page_head
  = (inl TypeError, page_head).
Proof.
  apply (@X19_display_without_title literal_numbers plain_repr some_controls
           (PyList [PyStr (py "R1 -> S1")]) page_head).
  reflexivity.
Defined.

(** X20: when the stored dict has a title and a scenario that are strings
    of Unicode scalar values but no [topology_connections], the display
    code raises [KeyError] for that key after it has put the header, the
    scenario, the columns and the heading of the topology map on the page:
    a part of the lab is displayed. *)
Theorem X20_partial_display `{PyNumbers} `{!PyRepr}
    (ui : Controls) (d : list (text * pyval)) (title scenario : text)
    (out : list (place * element)) :
  dict_get (py "lab_title") d = Some (PyStr title) ->
  is_text title = true ->
  dict_get (py "scenario_description") d = Some (PyStr scenario) ->
  is_text scenario = true ->
  dict_get (py "topology_connections") d = None ->
  display ui (PyDict d) out =
    (inl (KeyError (py "topology_connections")),
     out ++ [ (Page, StHeader (py "Lab: " ++ title));
              (Page, StInfo ([128221] ++ py " **Scenario:** " ++ scenario));
              (Page, StColumns);
              (Column1, StSubheader ([128205] ++ py " Topology Map")) ]) /\
  is_text (py "Lab: " ++ title) = true /\
  is_text ([128221] ++ py " **Scenario:** " ++ scenario) = true /\
  is_text ([128205] ++ py " Topology Map") = true.
Proof.
  intros Htitle Htext Hscenario Htext' Hconnections.
  split; [| split; [| split]].
  - unfold display, r_bind, lift, emit, subscript.
    rewrite Htitle, Hscenario, Hconnections. cbn [py_str].
    repeat rewrite <- app_assoc. reflexivity.
  - unfold is_text in *. rewrite forallb_app, Htext. reflexivity.
  - unfold is_text in *. rewrite !forallb_app, Htext'. reflexivity.
  - reflexivity.
Qed.

Lemma X20_witness :
  @display literal_numbers plain_repr some_controls
    (PyDict [(py "lab_title", PyStr (py "OSPF"));
             (py "scenario_description", PyStr (py "Branch office"))]) []
  = (inl (KeyError (py "topology_connections")),
     [] ++ [ (Page, StHeader (py "Lab: " ++ py "OSPF"));
             (Page, StInfo ([128221] ++ py " **Scenario:** "
                            ++ py "Branch office"));
             (Page, StColumns);
             (Column1, StSubheader ([128205] ++ py " Topology Map")) ]) /\
  is_text (py "Lab: " ++ py "OSPF") = true /\
  is_text ([128221] ++ py " **Scenario:** " ++ py "Branch office") = true /\
  is_text ([128205] ++ py " Topology Map") = true.
Proof.
  apply (@X20_partial_display literal_numbers plain_repr some_controls
           [(py "lab_title", PyStr (py "OSPF"));
            (py "scenario_description", PyStr (py "Branch office"))]
           (py "OSPF") (py "Branch office") []);
    reflexivity.
Defined.

(** ** A run of the script *)

Section ScriptFacts.
Context `{PyNumbers} `{Environment} `{!PyRepr}.

(** The attempt fails: no credential, an exception of the provider, or a
    cleaned response that is not JSON. *)
Lemma failed_attempt (ui : Controls) (w : World) :
  api_key ui = [] \/
  (exists e, generate_content (length (calls w)) (api_key ui)
               (get_lab_prompt (topic ui) (difficulty ui)) = inl e) \/
  (exists t, generate_content (length (calls w)) (api_key ui)
               (get_lab_prompt (topic ui) (difficulty ui)) = inr t /\
             json_loads (strip_fences t) = None) ->
  session_state (on_generate ui w).2 = session_state w /\
  length (errors (on_generate ui w).2) = S (length (errors w)).
Proof.
  intros Hfail. rewrite on_generate_session, on_generate_errors.
  destruct (decide (api_key ui = [])) as [Hkey | Hkey].
  - rewrite generate_lab_no_key by assumption. cbn.
    rewrite length_app. cbn. split; [reflexivity | lia].
  - destruct Hfail as [Hk | [[e He] | [t [Ht Hdec]]]]; [contradiction | |].
    + rewrite (generate_lab_provider_failure ui w e) by assumption. cbn.
      rewrite length_app. cbn. split; [reflexivity | lia].
    + rewrite (generate_lab_decode_failure ui w t) by assumption. cbn.
      rewrite length_app. cbn. split; [reflexivity | lia].
Qed.

End ScriptFacts.

(** X21: a run with a click whose attempt fails puts on the page, the error
    message apart, what a run without a click puts there from the same
    session: with a lab stored before, that lab is displayed again; with
    none, the page holds its two heading elements only.  One message more
    is shown. *)
Theorem X21_failed_click_shows_last_lab `{PyNumbers} `{Environment} `{!PyRepr}
    (ui : Controls) (w : World) :
  api_key ui = [] \/
  (exists e, generate_content (length (calls w)) (api_key ui)
               (get_lab_prompt (topic ui) (difficulty ui)) = inl e) \/
  (exists t, generate_content (length (calls w)) (api_key ui)
               (get_lab_prompt (topic ui) (difficulty ui)) = inr t /\
             json_loads (strip_fences t) = None) ->
  (run_script true ui w).1 = (run_script false ui w).1 /\
  (session_state w !! py "lab_data" = None ->
   (run_script true ui w).1 = (inr tt, page_head)) /\
  length (errors (run_script true ui w).2) = S (length (errors w)).
Proof.
  intros Hfail. destruct (failed_attempt ui w Hfail) as [Hsession Herrors].
  unfold run_script. rewrite Hsession.
  split; [| split].
  - destruct (session_state w !! py "lab_data"); reflexivity.
  - intros Hnone. rewrite Hnone. reflexivity.
  - destruct (session_state w !! py "lab_data"); exact Herrors.
Qed.

Lemma X21_witness :
  let env := stub_provider (inl (py "quota exceeded")) in
  let w : @World literal_numbers :=
    {| errors := []; calls := [];
       session_state := {[ py "lab_data" := seven_field_lab ]} |} in
  (@run_script literal_numbers env plain_repr true some_controls w).1
  = (@run_script literal_numbers env plain_repr false some_controls w).1 /\
  (session_state w !! py "lab_data" = None ->
   (@run_script literal_numbers env plain_repr true some_controls w).1
   = (inr tt, page_head)) /\
  length (errors (@run_script literal_numbers env plain_repr true
                    some_controls w).2) = S (length (errors w)).
Proof.
  intros env w.
  apply (@X21_failed_click_shows_last_lab literal_numbers env plain_repr
           some_controls w).
  right. left. exists (py "quota exceeded"). reflexivity.
Defined.

(** X22: a run with a click whose cleaned response parses to a value that
    Python takes as true displays that value, whatever was stored before,
    and the later runs without a click display it again. *)
Theorem X22_successful_click_shows_new_lab
    `{PyNumbers} `{Environment} `{!PyRepr}
    (ui : Controls) (w : World) (t : text) (v : pyval) :
  api_key ui <> [] ->
  generate_content (length (calls w)) (api_key ui)
    (get_lab_prompt (topic ui) (difficulty ui)) = inr t ->
  json_loads (strip_fences t) = Some v ->
  truthy v = true ->
  (run_script true ui w).1 = display ui v page_head /\
  (run_script false ui (run_script true ui w).2).1 = display ui v page_head.
Proof.
  intros Hkey Hout Hdec Htrue.
  assert (Hstored : session_state (on_generate ui w).2 !! py "lab_data"
                    = Some v).
  { rewrite on_generate_session.
    rewrite (generate_lab_decoded ui w t v Hkey Hout Hdec). cbn [fst].
    rewrite Htrue. apply lookup_insert_eq. }
  unfold run_script. rewrite Hstored. cbn [fst snd]. rewrite Hstored.
  split; reflexivity.
Qed.

Lemma X22_witness :
  let env := stub_provider (inr six_field_payload) in
  let w : @World literal_numbers :=
    {| errors := []; calls := [];
       session_state := {[ py "lab_data" := seven_field_lab ]} |} in
  (@run_script literal_numbers env plain_repr true some_controls w).1
  = @display literal_numbers plain_repr some_controls six_field_lab page_head /\
  (@run_script literal_numbers env plain_repr false some_controls
     (@run_script literal_numbers env plain_repr true some_controls w).2).1
  = @display literal_numbers plain_repr some_controls six_field_lab page_head.
Proof.
  intros env w.
  apply (@X22_successful_click_shows_new_lab literal_numbers env plain_repr
           some_controls w six_field_payload six_field_lab).
  - discriminate.
  - reflexivity.
  - vm_compute. reflexivity.
  - reflexivity.
Defined.

(** X23: a response that parses to a value that Python takes as true and
    that is not a dict (a list, a string, a number, [true]) is stored as the
    lab all the same; the run that stores it, and every later run without a
    click, raises [TypeError] at the first line of the display and puts no
    element of a lab on the page. *)
Theorem X23_stored_value_that_is_no_dict
    `{PyNumbers} `{Environment} `{!PyRepr}
    (ui : Controls) (w : World) (t : text) (v : pyval) :
  api_key ui <> [] ->
  generate_content (length (calls w)) (api_key ui)
    (get_lab_prompt (topic ui) (difficulty ui)) = inr t ->
  json_loads (strip_fences t) = Some v ->
  truthy v = true ->
  (forall d, v <> PyDict d) ->
  session_state (run_script true ui w).2 !! py "lab_data" = Some v /\
  (run_script true ui w).1 = (inl TypeError, page_head) /\
  (run_script false ui (run_script true ui w).2).1 = (inl TypeError, page_head).
Proof.
  intros Hkey Hout Hdec Htrue Hnodict.
  assert (Hstored : session_state (on_generate ui w).2 !! py "lab_data"
                    = Some v).
  { rewrite on_generate_session.
    rewrite (generate_lab_decoded ui w t v Hkey Hout Hdec). cbn [fst].
    rewrite Htrue. apply lookup_insert_eq. }
  assert (Hdisplay : display ui v page_head = (inl TypeError, page_head)).
  { destruct v as [| b | n | s | l | d]; try reflexivity.
    destruct (Hnodict d eq_refl). }
  unfold run_script. rewrite Hstored. cbn [fst snd]. rewrite Hstored.
  repeat split; exact Hdisplay.
Qed.

Lemma X23_witness :
  let env := stub_provider (inr (dq "['R1 -> S1']")) in
  let v : @pyval literal_numbers := PyList [PyStr (py "R1 -> S1")] in
  session_state (@run_script literal_numbers env plain_repr true
                   some_controls empty_world).2 !! py "lab_data" = Some v /\
  (@run_script literal_numbers env plain_repr true some_controls
     empty_world).1 = (inl TypeError, page_head) /\
  (@run_script literal_numbers env plain_repr false some_controls
     (@run_script literal_numbers env plain_repr true some_controls
        empty_world).2).1 = (inl TypeError, page_head).
Proof.
  intros env v.
  apply (@X23_stored_value_that_is_no_dict literal_numbers env plain_repr
           some_controls empty_world (dq "['R1 -> S1']") v).
  - discriminate.
  - reflexivity.
  - vm_compute. reflexivity.
  - reflexivity.
  - intros d. discriminate.
Defined.

(** ** More on the topology loop *)

(** X24: when [topology_connections] is a string and not a list of
    strings, the loop runs over its characters, none of which holds an
    arrow, and draws no edge: the map stays empty, without any exception. *)
Theorem X24_connections_given_as_a_string `{PyNumbers} (s : text) :
  exists entries,
    iterate (PyStr s) = inr entries /\
    length entries = length s /\
    topology_edges entries = [].
Proof.
  eexists. split; [reflexivity |]. split; [apply length_fmap |].
  unfold topology_edges. rewrite topology_loop_omap. cbn [app].
  induction s as [| c s IH]; [reflexivity |].
  cbn [fmap list_fmap omap list_omap].
  rewrite connection_edge_str. unfold ARROW. cbn [Str.partition Str.startswith].
  rewrite andb_false_r. exact IH.
Qed.

(** X25: an entry for which the loop draws an edge reads: whitespace, the
    source label, whitespace, the arrow, whitespace, the destination label,
    whitespace, and then either nothing or a second arrow and more. *)
Theorem X25_labels_in_the_entry `{PyNumbers} (s src dst : text) :
  connection_edge (PyStr s) = Some (src, dst) ->
  exists w1 w2 w3 w4 rest,
    s = (w1 ++ src ++ w2) ++ ARROW ++ (w3 ++ dst ++ w4) ++ rest /\
    forallb Str.isspace (w1 ++ w2 ++ w3 ++ w4) = true /\
    (rest = [] \/ Str.startswith ARROW rest = true).
Proof.
  rewrite connection_edge_str. unfold before_arrow, ARROW.
  destruct (Str.partition [45; 62] s) as [[a r] |] eqn:Hs; [| discriminate].
  intros Hedge. injection Hedge as <- <-.
  apply partition_app in Hs.
  destruct (strip_infix a) as (w1 & w2 & Ha & H1 & H2).
  assert (Hdst : exists b rest,
    r = b ++ rest /\ (rest = [] \/ Str.startswith [45; 62] rest = true) /\
    match Str.partition [45; 62] r with
    | Some (b', _) => b'
    | None => r
    end = b).
  { destruct (Str.partition [45; 62] r) as [[b r'] |] eqn:Hr.
    - apply partition_app in Hr. exists b, ([45; 62] ++ r').
      split; [exact Hr |]. split; [right; reflexivity | reflexivity].
    - exists r, []. rewrite app_nil_r. auto. }
  destruct Hdst as (b & rest & Hr & Hrest & ->).
  destruct (strip_infix b) as (w3 & w4 & Hb & H3 & H4).
  exists w1, w2, w3, w4, rest.
  split; [| split; [| exact Hrest]].
  - rewrite <- Ha, <- Hb, <- Hr. exact Hs.
  - rewrite !forallb_app, H1, H2, H3, H4. reflexivity.
Qed.

Lemma X25_witness :
  exists w1 w2 w3 w4 rest,
    py " R1  -> S1 -> PC1"
    = (w1 ++ py "R1" ++ w2) ++ ARROW ++ (w3 ++ py "S1" ++ w4) ++ rest /\
    forallb Str.isspace (w1 ++ w2 ++ w3 ++ w4) = true /\
    (rest = [] \/ Str.startswith ARROW rest = true).
Proof.
  apply (@X25_labels_in_the_entry literal_numbers
           (py " R1  -> S1 -> PC1") (py "R1") (py "S1")).
  vm_compute. reflexivity.
Defined.
